(** * HoloLensForCV: the media frame reader context

    A shallow embedding of [Shared/HoloLensForCV/MediaFrameReaderContext.cpp]:
    the handler [MediaFrameReaderContext::FrameArrived] that turns a frame
    delivered by a [MediaFrameReader] into a [SensorFrame], hands it to the
    sensor frame sink and keeps a reference to it, and the accessor
    [MediaFrameReaderContext::GetLatestSensorFrame].

    The handler is sequential code with three kinds of effects, all of which
    are modelled explicitly:
    - mutation of reference-counted objects ([SensorFrame^] handles are
      addresses into a heap of frame objects, the [_latestSensorFrame] field
      holds such an address);
    - C++/CX exceptions ([safe_cast], a call through a null handle, the
      perception time stamp helper) and the one [try]/[catch] of the source;
    - calls that leave the object: [dbg::trace], [ISensorFrameSink::Send]
      and the acquisition and release of [_latestSensorFrameMutex], recorded
      in order in a log of events. *)

From Stdlib Require Import ZArith Lia List.
From stdpp Require Import base option list gmap.

(** ** Platform data *)

(** [Platform::Guid]: [Data1], [Data2], [Data3] and the eight bytes of
    [Data4], as the eleven arguments of the constructor. *)
Definition Guid : Type := (Z * Z * Z * list Z)%type.

(** Line 146. *)
Definition c_MFSampleExtension_Spatial_CameraCoordinateSystem : Guid :=
  (0x9d13c82f, 0x2199, 0x4e67, [0x91; 0xcd; 0xd1; 0xa4; 0x18; 0x1f; 0x25; 0x34])%Z.

(** Line 204. *)
Definition c_MFSampleExtension_Spatial_CameraViewTransform : Guid :=
  (0x4e251fa4, 0x830f, 0x4770, [0x85; 0x9a; 0x4b; 0x8d; 0x99; 0xaa; 0x80; 0x9b])%Z.

(** A [float] is kept as its 32 bit IEEE-754 pattern: the handler never
    computes with floats, it copies them and reads them out of raw bytes. *)
Definition float : Type := Z.

(** [Windows::Foundation::Numerics::float4x4]: sixteen floats, laid out row
    by row ([m11] first, [m44] last), 64 bytes. *)
Record float4x4 : Type := mk_float4x4 {
  m11 : float; m12 : float; m13 : float; m14 : float;
  m21 : float; m22 : float; m23 : float; m24 : float;
  m31 : float; m32 : float; m33 : float; m34 : float;
  m41 : float; m42 : float; m43 : float; m44 : float
}.

(** What [memset (&zero, 0, sizeof (zero))] leaves in a [float4x4]
    (lines 189-194 and 231-236): every bit cleared. *)
Definition zero : float4x4 :=
  (mk_float4x4 0 0 0 0  0 0 0 0  0 0 0 0  0 0 0 0)%Z.

(** The little-endian 32 bit word held by four consecutive bytes. *)
Definition float_of_bytes (b0 b1 b2 b3 : Byte.byte) : float :=
  (Z.of_N (Byte.to_N b0)
   + 2 ^ 8 * Z.of_N (Byte.to_N b1)
   + 2 ^ 16 * Z.of_N (Byte.to_N b2)
   + 2 ^ 24 * Z.of_N (Byte.to_N b3))%Z.

(** The byte of a word at byte offset [k]. *)
Definition byte_of_float (k : Z) (w : float) : Byte.byte :=
  match Byte.of_N (Z.to_N ((w / 2 ^ (8 * k)) mod 256)) with
  | Some b => b
  | None => Byte.x00
  end.

Definition bytes_of_float (w : float) : list Byte.byte :=
  [byte_of_float 0 w; byte_of_float 1 w; byte_of_float 2 w; byte_of_float 3 w].

(** Reading [n] consecutive floats through a [float*] that points at the
    first byte of [Data].  [None] when the read runs past the end of the
    array, which C++ leaves undefined. *)
Fixpoint floats_of_bytes (n : nat) (Data : list Byte.byte) : option (list float) :=
  match n with
  | O => Some []
  | S n' =>
      match Data with
      | b0 :: b1 :: b2 :: b3 :: rest =>
          match floats_of_bytes n' rest with
          | Some ws => Some (float_of_bytes b0 b1 b2 b3 :: ws)
          | None => None
          end
      | _ => None
      end
  end.

(** [*reinterpret_cast<float4x4*>(Data)] (lines 213-214). *)
Definition reinterpret_float4x4 (Data : list Byte.byte) : option float4x4 :=
  match floats_of_bytes 16 Data with
  | Some [a11; a12; a13; a14; a21; a22; a23; a24;
          a31; a32; a33; a34; a41; a42; a43; a44] =>
      Some (mk_float4x4 a11 a12 a13 a14 a21 a22 a23 a24
                        a31 a32 a33 a34 a41 a42 a43 a44)
  | _ => None
  end.

(** The 64 bytes a [float4x4] occupies in memory. *)
Definition floats_of_float4x4 (m : float4x4) : list float :=
  [m11 m; m12 m; m13 m; m14 m; m21 m; m22 m; m23 m; m24 m;
   m31 m; m32 m; m33 m; m34 m; m41 m; m42 m; m43 m; m44 m].

Definition bytes_of_float4x4 (m : float4x4) : list Byte.byte :=
  flat_map bytes_of_float (floats_of_float4x4 m).

(** Opaque platform handles. *)
Definition SpatialCoordinateSystem : Type := nat.
Definition PerceptionTimestamp : Type := nat.
Definition ICameraIntrinsics : Type := nat.
Definition ISensorFrameSink : Type := nat.

(** The exceptions of C++/CX that the handler can meet. *)
Inductive PlatformException : Type :=
  | InvalidCastException
  | NullReferenceException
  | OutOfBoundsException
  | COMException (hresult : Z).

(** A [Platform::Object^] stored in a frame's property set. *)
Inductive Object : Type :=
  | ObjNull
  | ObjSpatialCoordinateSystem (cs : SpatialCoordinateSystem)
  | ObjByteArray (Value : list Byte.byte)
  | ObjCameraIntrinsics (intrinsics : ICameraIntrinsics)
  | ObjOther (runtime_class : nat).

(** [Windows::Graphics::Imaging::SoftwareBitmap]. [PixelWidth] and
    [PixelHeight] are [int]. *)
Record SoftwareBitmap : Type := mk_SoftwareBitmap {
  PixelWidth : Z;
  PixelHeight : Z;
  pixels : list Byte.byte
}.

(** [SoftwareBitmap::Copy]: a new bitmap with the same contents. *)
Definition Copy (source : SoftwareBitmap) : SoftwareBitmap :=
  mk_SoftwareBitmap (PixelWidth source) (PixelHeight source) (pixels source).

(** [Windows::Media::Capture::Frames::VideoMediaFrame]; both members are
    handles that may be null. *)
Record VideoMediaFrame_t : Type := mk_VideoMediaFrame {
  SoftwareBitmap_ : option SoftwareBitmap;
  CameraIntrinsics_ : option ICameraIntrinsics
}.

(** [Windows::Media::Capture::Frames::MediaFrameReference].
    [SystemRelativeTime] is a handle to a boxed time span, which may be
    null; the [Z] is the [Duration] of its [Value]. *)
Record MediaFrameReference : Type := mk_MediaFrameReference {
  SystemRelativeTime : option Z;
  VideoMediaFrame : option VideoMediaFrame_t;
  Properties : gmap Guid Object
}.

(** [MediaFrameReader], as far as the handler uses it: what
    [TryAcquireLatestFrame] answers for this arrival. *)
Record MediaFrameReader : Type := mk_MediaFrameReader {
  TryAcquireLatestFrame : option MediaFrameReference
}.

(** The perception platform the handler calls into. *)
Record Perception : Type := mk_Perception {
  FromHistoricalTargetTime : Z -> PerceptionTimestamp + PlatformException;
  TryGetTransformTo :
    SpatialCoordinateSystem -> SpatialCoordinateSystem -> option float4x4
}.

(** ** The classes of the repository the handler uses *)

(** Modelled from the spec: the declaration of [enum class SensorType] is not
    part of the source file.  The four visible light cameras are the
    enumerators the handler names (lines 256-259); every other enumerator is
    an [OtherSensorType] with its [int32_t] value. *)
Inductive SensorType : Type :=
  | VisibleLightLeftFront
  | VisibleLightLeftLeft
  | VisibleLightRightFront
  | VisibleLightRightRight
  | OtherSensorType (value : Z).

#[global] Instance SensorType_eq_dec : EqDecision SensorType.
Proof. solve_decision. Defined.

(** Modelled from the spec: the class [CameraIntrinsics] is not part of the
    source file; it wraps the intrinsics handle with the effective image
    width and the reported height it is constructed from (line 264). *)
Record CameraIntrinsics : Type := mk_CameraIntrinsics {
  sensorStreamingCameraIntrinsics : Object;
  ImageWidth : Z;
  ImageHeight : Z
}.

(** Modelled from the spec: the class [SensorFrame] is not part of the source
    file.  The constructor takes the sensor type, the time stamp and the
    bitmap (line 140); the two transforms and the intrinsics are properties
    the handler assigns afterwards.  The intrinsics are a handle, null
    until then; what the constructor leaves in the two transforms is not
    known, and is taken from the build (see [Build] below). *)
Record SensorFrame : Type := mk_SensorFrame {
  FrameType : SensorType;
  Timestamp : Z;
  SoftwareBitmap_of : SoftwareBitmap;
  FrameToOrigin : float4x4;
  CameraViewTransform : float4x4;
  CameraIntrinsics_of : option CameraIntrinsics
}.

(** Modelled from the spec: the constructor of [SensorFrame] is not part of
    the source file.  It stores its three arguments and leaves the
    intrinsics null; [frameToOrigin] and [cameraViewTransform] are what it
    leaves in the two transforms. *)
Definition new_SensorFrame_value (frameToOrigin cameraViewTransform : float4x4)
    (sensorType : SensorType) (timestamp : Z) (softwareBitmap : SoftwareBitmap)
    : SensorFrame :=
  mk_SensorFrame sensorType timestamp softwareBitmap
    frameToOrigin cameraViewTransform None.

(** Modelled from the spec: [SpatialPerception] is not part of the source
    file; [OriginCoordinateSystem] stands for
    [GetOriginFrameOfReference()->CoordinateSystem]. *)
Record SpatialPerception : Type := mk_SpatialPerception {
  OriginCoordinateSystem : SpatialCoordinateSystem
}.

(** ** The object, the heap and the log *)

(** A [SensorFrame^]: the address of a frame object in the heap. *)
Definition SensorFrameRef : Type := nat.

(** The fields of a [MediaFrameReaderContext] that the source file uses.
    [_sensorFrameSink] and [_latestSensorFrame] are handles that may be
    null; [_spatialPerception] is not (the constructor takes it as [_In_],
    the sink as [_In_opt_]); [_timeConverter] and
    [_latestSensorFrameMutex] are modelled apart (a function of the build,
    and the lock events of the log). *)
Record MediaFrameReaderContext : Type := mk_MediaFrameReaderContext {
  _sensorType : SensorType;
  _spatialPerception : SpatialPerception;
  _sensorFrameSink : option ISensorFrameSink;
  _latestSensorFrame : option SensorFrameRef
}.

(** The arguments of the seven calls of [dbg::trace]. *)
Inductive TraceMessage : Type :=
  | frame_is_null (sensorType : SensorType)
  | VideoMediaFrame_is_null (sensorType : SensorType)
  | SoftwareBitmap_is_null (sensorType : SensorType)
  | timestamp_relative (sensorType : SensorType) (Duration : Z)
  | FromHistoricalTargetTime_call_failed (exception : PlatformException)
  | frameToOrigin_is (m : float4x4)
  | cameraViewTransform_is (m : float4x4).

(** What the handler does that is visible outside its own object, in the
    order in which it does it. *)
Inductive Event : Type :=
  | EvTrace (msg : TraceMessage)
  | EvSend (sink : ISensorFrameSink) (sensorFrame : SensorFrameRef)
  | EvLock
  | EvStoreLatest (sensorFrame : SensorFrameRef)
  | EvLoadLatest (sensorFrame : option SensorFrameRef)
  | EvUnlock.

Record World : Type := mk_World {
  this : MediaFrameReaderContext;
  heap : list SensorFrame;
  log : list Event
}.

(** ** The monad of the handler: state, exceptions, undefined behaviour *)

Inductive Result (A : Type) : Type :=
  | Normal (a : A)
  | Raised (e : PlatformException)
  | Undefined.
Arguments Normal {A} a.
Arguments Raised {A} e.
Arguments Undefined {A}.

Definition M (A : Type) : Type := World -> Result A * World.

#[global] Instance M_ret : MRet M := fun A a w => (Normal a, w).

#[global] Instance M_bind : MBind M := fun A B f m w =>
  match m w with
  | (Normal a, w') => f a w'
  | (Raised e, w') => (Raised e, w')
  | (Undefined, w') => (Undefined, w')
  end.

#[global] Instance M_throw : MThrow PlatformException M :=
  fun A e w => (Raised e, w).

Definition undefined {A : Type} : M A := fun w => (Undefined, w).

(** [try { body } catch (Platform::Exception^ e) { ... }]: the exception, if
    any, is handed to the code that follows. *)
Definition try_catch {A : Type} (body : M A) : M (A + PlatformException) := fun w =>
  match body w with
  | (Normal a, w') => (Normal (inl a), w')
  | (Raised e, w') => (Normal (inr e), w')
  | (Undefined, w') => (Undefined, w')
  end.

Definition get_this : M MediaFrameReaderContext := fun w => (Normal (this w), w).

Definition emit (e : Event) : M unit := fun w =>
  (Normal tt, mk_World (this w) (heap w) (log w ++ [e])).

Definition trace (msg : TraceMessage) : M unit := emit (EvTrace msg).

Definition when (b : bool) (m : M unit) : M unit := if b then m else mret tt.

(** [ref new SensorFrame (...)]. *)
Definition ref_new (v : SensorFrame) : M SensorFrameRef := fun w =>
  (Normal (length (heap w)), mk_World (this w) (heap w ++ [v]) (log w)).

(** Assignment to a property of the frame object behind a handle. *)
Definition modify (r : SensorFrameRef) (f : SensorFrame -> SensorFrame) : M unit :=
  fun w =>
    match heap w !! r with
    | Some v => (Normal tt, mk_World (this w) (<[r := f v]> (heap w)) (log w))
    | None => (Undefined, w)
    end.

Definition set_FrameToOrigin (m : float4x4) (v : SensorFrame) : SensorFrame :=
  mk_SensorFrame (FrameType v) (Timestamp v) (SoftwareBitmap_of v)
    m (CameraViewTransform v) (CameraIntrinsics_of v).

Definition set_CameraViewTransform (m : float4x4) (v : SensorFrame) : SensorFrame :=
  mk_SensorFrame (FrameType v) (Timestamp v) (SoftwareBitmap_of v)
    (FrameToOrigin v) m (CameraIntrinsics_of v).

Definition set_CameraIntrinsics (ci : CameraIntrinsics) (v : SensorFrame) : SensorFrame :=
  mk_SensorFrame (FrameType v) (Timestamp v) (SoftwareBitmap_of v)
    (FrameToOrigin v) (CameraViewTransform v) (Some ci).

Definition put_FrameToOrigin (r : SensorFrameRef) (m : float4x4) : M unit :=
  modify r (set_FrameToOrigin m).

Definition put_CameraViewTransform (r : SensorFrameRef) (m : float4x4) : M unit :=
  modify r (set_CameraViewTransform m).

Definition put_CameraIntrinsics (r : SensorFrameRef) (ci : CameraIntrinsics) : M unit :=
  modify r (set_CameraIntrinsics ci).

(** [_latestSensorFrame = sensorFrame]. *)
Definition set_latestSensorFrame (r : option SensorFrameRef)
    (c : MediaFrameReaderContext) : MediaFrameReaderContext :=
  mk_MediaFrameReaderContext (_sensorType c) (_spatialPerception c)
    (_sensorFrameSink c) r.

Definition put_latestSensorFrame (r : SensorFrameRef) : M unit := fun w =>
  (Normal tt,
   mk_World (set_latestSensorFrame (Some r) (this w))
     (heap w) (log w ++ [EvStoreLatest r])).

(** [latestSensorFrame = _latestSensorFrame]. *)
Definition get_latestSensorFrame : M (option SensorFrameRef) := fun w =>
  (Normal (_latestSensorFrame (this w)),
   mk_World (this w) (heap w) (log w ++ [EvLoadLatest (_latestSensorFrame (this w))])).

(** ** Platform calls *)

(** [IMapView::HasKey] and [IMapView::Lookup]; the latter fails on a key
    that is not in the map. *)
Definition HasKey (m : gmap Guid Object) (key : Guid) : bool :=
  match m !! key with Some _ => true | None => false end.

Definition Lookup (m : gmap Guid Object) (key : Guid) : M Object :=
  match m !! key with
  | Some o => mret o
  | None => mthrow OutOfBoundsException
  end.

(** [safe_cast<T^>]: null stays null, an object of another class raises
    [InvalidCastException]. *)
Definition safe_cast_SpatialCoordinateSystem (o : Object)
    : M (option SpatialCoordinateSystem) :=
  match o with
  | ObjNull => mret None
  | ObjSpatialCoordinateSystem cs => mret (Some cs)
  | _ => mthrow InvalidCastException
  end.

Definition safe_cast_IBoxArray_byte (o : Object) : M (option (list Byte.byte)) :=
  match o with
  | ObjNull => mret None
  | ObjByteArray bytes => mret (Some bytes)
  | _ => mthrow InvalidCastException
  end.

(** [frame->SystemRelativeTime->Value.Duration] and [box->Value]: a call
    through a null handle raises [NullReferenceException]. *)
Definition SystemRelativeTime_Value (frame : MediaFrameReference) : M Z :=
  match SystemRelativeTime frame with
  | Some Duration => mret Duration
  | None => mthrow NullReferenceException
  end.

Definition IBoxArray_Value (box : option (list Byte.byte)) : M (list Byte.byte) :=
  match box with
  | Some bytes => mret bytes
  | None => mthrow NullReferenceException
  end.

(** Reading a [float4x4] through the reinterpreted data pointer. *)
Definition load_float4x4 (Data : list Byte.byte) : M float4x4 :=
  match reinterpret_float4x4 Data with
  | Some m => mret m
  | None => undefined
  end.

Definition call_FromHistoricalTargetTime (os : Perception) (timestamp : Z)
    : M PerceptionTimestamp :=
  match FromHistoricalTargetTime os timestamp with
  | inl perceptionTimestamp => mret perceptionTimestamp
  | inr exception => mthrow exception
  end.

(** [unsigned int]: conversion from [int] and multiplication wrap modulo
    [2 ^ 32]. *)
Definition uint32 (z : Z) : Z := (z mod 2 ^ 32)%Z.

(** ** MediaFrameReaderContext *)

(** The constructor (lines 16-24); [_latestSensorFrame] starts out null. *)
Definition MediaFrameReaderContext_new
    (sensorType : SensorType) (spatialPerception : SpatialPerception)
    (sensorFrameSink : option ISensorFrameSink) : MediaFrameReaderContext :=
  mk_MediaFrameReaderContext sensorType spatialPerception sensorFrameSink None.

(** [GetLatestSensorFrame] (lines 26-37). *)
Definition GetLatestSensorFrame : M (option SensorFrameRef) :=
  emit EvLock;;
  latestSensorFrame ← get_latestSensorFrame;
  emit EvUnlock;;
  mret latestSensorFrame.

(** What the source file takes from the rest of the build: the time
    converter held by the context, the two logging switches of the debug
    header, the key of the sensor streaming intrinsics, and what the
    constructor of [SensorFrame] leaves in the two transforms of a new
    frame. *)
Record Build : Type := mk_Build {
  RelativeTicksToAbsoluteTicks : Z -> Z;
  DBG_ENABLE_VERBOSE_LOGGING : bool;
  DBG_ENABLE_ERROR_LOGGING : bool;
  MFSampleExtension_SensorStreaming_CameraIntrinsics : Guid;
  SensorFrame_FrameToOrigin : float4x4;
  SensorFrame_CameraViewTransform : float4x4
}.

(** [ref new SensorFrame (_sensorType, timestamp, softwareBitmap)]
    (lines 139-140). *)
Definition new_SensorFrame (build : Build) (sensorType : SensorType)
    (timestamp : Z) (softwareBitmap : SoftwareBitmap) : M SensorFrameRef :=
  ref_new (new_SensorFrame_value (SensorFrame_FrameToOrigin build)
             (SensorFrame_CameraViewTransform build)
             sensorType timestamp softwareBitmap).

(** Lines 145-198: the frame-to-origin transform. *)
Definition ExtractFrameToOrigin (build : Build) (os : Perception)
    (frame : MediaFrameReference) (sensorFrame : SensorFrameRef) : M unit :=
  this ← get_this;
  frameCoordinateSystem ←
    (if HasKey (Properties frame) c_MFSampleExtension_Spatial_CameraCoordinateSystem
     then
       o ← Lookup (Properties frame) c_MFSampleExtension_Spatial_CameraCoordinateSystem;
       safe_cast_SpatialCoordinateSystem o
     else mret None);
  frameToOriginObtained ←
    match frameCoordinateSystem with
    | Some cs =>
        match TryGetTransformTo os cs
                (OriginCoordinateSystem (_spatialPerception this)) with
        | Some frameToOriginReference =>
            when (DBG_ENABLE_VERBOSE_LOGGING build)
              (trace (frameToOrigin_is frameToOriginReference));;
            put_FrameToOrigin sensorFrame frameToOriginReference;;
            mret true
        | None => mret false
        end
    | None => mret false
    end;
  if negb frameToOriginObtained
  then put_FrameToOrigin sensorFrame zero
  else mret tt.

(** Lines 204-239: the camera view transform. *)
Definition ExtractCameraViewTransform (build : Build)
    (frame : MediaFrameReference) (sensorFrame : SensorFrameRef) : M unit :=
  if HasKey (Properties frame) c_MFSampleExtension_Spatial_CameraViewTransform
  then
    mfMtUserData ← Lookup (Properties frame) c_MFSampleExtension_Spatial_CameraViewTransform;
    box ← safe_cast_IBoxArray_byte mfMtUserData;
    cameraVBewTransformAsPlatformArray ← IBoxArray_Value box;
    cameraViewTransform ← load_float4x4 cameraVBewTransformAsPlatformArray;
    put_CameraViewTransform sensorFrame cameraViewTransform;;
    when (DBG_ENABLE_VERBOSE_LOGGING build)
      (trace (cameraViewTransform_is cameraViewTransform))
  else put_CameraViewTransform sensorFrame zero.

(** The test of lines 256-259. *)
Definition is_VisibleLight (sensorType : SensorType) : bool :=
  bool_decide (sensorType = VisibleLightLeftFront)
  || bool_decide (sensorType = VisibleLightLeftLeft)
  || bool_decide (sensorType = VisibleLightRightFront)
  || bool_decide (sensorType = VisibleLightRightRight).

(** Lines 245-266: the camera intrinsics.  [ci] is read and not used. *)
Definition HoldCameraIntrinsics (build : Build) (frame : MediaFrameReference)
    (videoMediaFrame : VideoMediaFrame_t) (softwareBitmap : SoftwareBitmap)
    (sensorFrame : SensorFrameRef) : M unit :=
  this ← get_this;
  let ci := CameraIntrinsics_ videoMediaFrame in
  if HasKey (Properties frame) (MFSampleExtension_SensorStreaming_CameraIntrinsics build)
  then
    cameraIntrinsics ←
      Lookup (Properties frame) (MFSampleExtension_SensorStreaming_CameraIntrinsics build);
    let imageWidth := uint32 (PixelWidth softwareBitmap) in
    let imageWidth :=
      if is_VisibleLight (_sensorType this)
      then uint32 (imageWidth * 4)
      else imageWidth in
    put_CameraIntrinsics sensorFrame
      (mk_CameraIntrinsics cameraIntrinsics imageWidth (PixelHeight softwareBitmap))
  else mret tt.

(** Lines 268-277: the sink, then the latest frame under the mutex. *)
Definition Publish (sensorFrame : SensorFrameRef) : M unit :=
  this ← get_this;
  match _sensorFrameSink this with
  | Some sink => emit (EvSend sink sensorFrame)
  | None => mret tt
  end;;
  emit EvLock;;
  put_latestSensorFrame sensorFrame;;
  emit EvUnlock.

(** [FrameArrived] (lines 39-278).  The [args] of the event are not used. *)
Definition FrameArrived (build : Build) (os : Perception) (sender : MediaFrameReader)
    : M unit :=
  this ← get_this;
  match TryAcquireLatestFrame sender with
  | None => trace (frame_is_null (_sensorType this))
  | Some frame =>
  match VideoMediaFrame frame with
  | None => trace (VideoMediaFrame_is_null (_sensorType this))
  | Some videoMediaFrame =>
  match SoftwareBitmap_ videoMediaFrame with
  | None => trace (SoftwareBitmap_is_null (_sensorType this))
  | Some bitmap =>
    when (DBG_ENABLE_VERBOSE_LOGGING build)
      (Duration ← SystemRelativeTime_Value frame;
       trace (timestamp_relative (_sensorType this) Duration));;
    Duration ← SystemRelativeTime_Value frame;
    let timestamp := RelativeTicksToAbsoluteTicks build Duration in
    attempt ← try_catch (call_FromHistoricalTargetTime os timestamp);
    match attempt with
    | inr exception =>
        when (DBG_ENABLE_ERROR_LOGGING build)
          (trace (FromHistoricalTargetTime_call_failed exception))
    | inl perceptionTimestamp =>
        let softwareBitmap := Copy bitmap in
        sensorFrame ← new_SensorFrame build (_sensorType this) timestamp softwareBitmap;
        ExtractFrameToOrigin build os frame sensorFrame;;
        ExtractCameraViewTransform build frame sensorFrame;;
        HoldCameraIntrinsics build frame videoMediaFrame softwareBitmap sensorFrame;;
        Publish sensorFrame
    end
  end end end.

(** ** Notions used to state the properties *)

(** The frame an arrival produced: the handler returned normally and the
    heap holds a frame object at the address that was free when it started.
    (An arrival that is skipped allocates nothing.) *)
Definition produced_by (w : World) (outcome : Result unit * World)
    : option (SensorFrameRef * SensorFrame) :=
  match outcome with
  | (Normal _, w') =>
      match heap w' !! length (heap w) with
      | Some v => Some (length (heap w), v)
      | None => None
      end
  | _ => None
  end.

(** The arrival [sender] is processed successfully from [w]: it ends in
    [w'], and [sensorFrame] is the handle of the frame it produced, [v] the
    frame object behind it. *)
Definition produces (build : Build) (os : Perception) (sender : MediaFrameReader)
    (w : World) (sensorFrame : SensorFrameRef) (v : SensorFrame) (w' : World) : Prop :=
  FrameArrived build os sender w = (Normal tt, w')
  /\ produced_by w (Normal tt, w') = Some (sensorFrame, v).

(** A run of arrivals on one context, oldest first, with the frames the
    successful ones produced.  An exception that leaves the handler goes
    back to the reader that raised the event and the context lives on; after
    undefined behaviour nothing is known, and the run has no result. *)
Fixpoint deliver (build : Build) (arrivals : list (Perception * MediaFrameReader))
    (w : World) : option (list (SensorFrameRef * SensorFrame) * World) :=
  match arrivals with
  | [] => Some ([], w)
  | (os, sender) :: rest =>
      match FrameArrived build os sender w with
      | (Undefined, _) => None
      | (outcome, w1) =>
          match deliver build rest w1 with
          | Some (frames, w') =>
              Some (match produced_by w (outcome, w1) with
                    | Some f => f :: frames
                    | None => frames
                    end, w')
          | None => None
          end
      end
  end.

Definition is_trace (e : Event) : bool :=
  match e with EvTrace _ => true | _ => false end.

(** Reading a log: no [Send] is made while the mutex is held ([held] says
    whether it is held when the log starts). *)
Fixpoint sends_unlocked (held : bool) (events : list Event) : bool :=
  match events with
  | [] => true
  | EvLock :: rest => sends_unlocked true rest
  | EvUnlock :: rest => sends_unlocked false rest
  | EvSend _ _ :: rest => negb held && sends_unlocked held rest
  | _ :: rest => sends_unlocked held rest
  end.

Definition is_store (sensorFrame : SensorFrameRef) (e : Event) : bool :=
  match e with
  | EvStoreLatest r => Nat.eqb r sensorFrame
  | _ => false
  end.

Definition is_send (sink : ISensorFrameSink) (sensorFrame : SensorFrameRef)
    (e : Event) : bool :=
  match e with
  | EvSend s r => Nat.eqb s sink && Nat.eqb r sensorFrame
  | _ => false
  end.

(** Reading a log: the frame is sent to the sink, and stored as the latest
    frame only after that. *)
Fixpoint sent_then_stored (sink : ISensorFrameSink) (sensorFrame : SensorFrameRef)
    (events : list Event) : bool :=
  match events with
  | [] => false
  | e :: rest =>
      if is_store sensorFrame e then false
      else if is_send sink sensorFrame e then existsb (is_store sensorFrame) rest
      else sent_then_stored sink sensorFrame rest
  end.

(** What [safe_cast] accepts: null, or an object of the class asked for. *)
Definition is_SpatialCoordinateSystem (o : Object) : bool :=
  match o with ObjNull | ObjSpatialCoordinateSystem _ => true | _ => false end.

Definition is_IBoxArray_byte (o : Object) : bool :=
  match o with ObjNull | ObjByteArray _ => true | _ => false end.

(** The same arrival, with another built-in [CameraIntrinsics] on the video
    frame. *)
Definition with_CameraIntrinsics (ci : option ICameraIntrinsics)
    (sender : MediaFrameReader) : MediaFrameReader :=
  mk_MediaFrameReader
    (match TryAcquireLatestFrame sender with
     | Some frame =>
         Some (mk_MediaFrameReference (SystemRelativeTime frame)
                 (match VideoMediaFrame frame with
                  | Some vmf => Some (mk_VideoMediaFrame (SoftwareBitmap_ vmf) ci)
                  | None => None
                  end)
                 (Properties frame))
     | None => None
     end).

Definition visible_light_cameras : list SensorType :=
  [VisibleLightLeftFront; VisibleLightLeftLeft;
   VisibleLightRightFront; VisibleLightRightRight].

(** ** The handler in closed form *)

(** The definitions of this section are not part of the embedding: they
    say, as plain functions of the arrival, what each block of the handler
    computes and logs, and [FrameArrived_closed] puts them together.
    [FrameArrived_run] below proves that the handler computes just that. *)

Definition verbose (build : Build) (msg : TraceMessage) : list Event :=
  if DBG_ENABLE_VERBOSE_LOGGING build then [EvTrace msg] else [].

Definition origin_cast_ok (frame : MediaFrameReference) : bool :=
  match Properties frame !! c_MFSampleExtension_Spatial_CameraCoordinateSystem with
  | Some o => is_SpatialCoordinateSystem o
  | None => true
  end.

Definition origin_transform_reference (os : Perception) (c : MediaFrameReaderContext)
    (frame : MediaFrameReference) : option float4x4 :=
  match Properties frame !! c_MFSampleExtension_Spatial_CameraCoordinateSystem with
  | Some (ObjSpatialCoordinateSystem cs) =>
      TryGetTransformTo os cs (OriginCoordinateSystem (_spatialPerception c))
  | _ => None
  end.

Definition origin_transform (os : Perception) (c : MediaFrameReaderContext)
    (frame : MediaFrameReference) : float4x4 :=
  match origin_transform_reference os c frame with
  | Some m => m
  | None => zero
  end.

Definition origin_transform_log (build : Build) (os : Perception)
    (c : MediaFrameReaderContext) (frame : MediaFrameReference) : list Event :=
  match origin_transform_reference os c frame with
  | Some m => verbose build (frameToOrigin_is m)
  | None => []
  end.

Definition view_transform (frame : MediaFrameReference) : Result float4x4 :=
  match Properties frame !! c_MFSampleExtension_Spatial_CameraViewTransform with
  | None => Normal zero
  | Some ObjNull => Raised NullReferenceException
  | Some (ObjByteArray bytes) =>
      match reinterpret_float4x4 bytes with
      | Some m => Normal m
      | None => Undefined
      end
  | Some _ => Raised InvalidCastException
  end.

Definition view_transform_log (build : Build) (frame : MediaFrameReference)
    (m : float4x4) : list Event :=
  match Properties frame !! c_MFSampleExtension_Spatial_CameraViewTransform with
  | Some _ => verbose build (cameraViewTransform_is m)
  | None => []
  end.

Definition image_width (sensorType : SensorType) (softwareBitmap : SoftwareBitmap) : Z :=
  if is_VisibleLight sensorType
  then uint32 (uint32 (PixelWidth softwareBitmap) * 4)
  else uint32 (PixelWidth softwareBitmap).

Definition held_intrinsics (build : Build) (c : MediaFrameReaderContext)
    (frame : MediaFrameReference) (softwareBitmap : SoftwareBitmap)
    : option CameraIntrinsics :=
  match Properties frame !! MFSampleExtension_SensorStreaming_CameraIntrinsics build with
  | Some o =>
      Some (mk_CameraIntrinsics o (image_width (_sensorType c) softwareBitmap)
              (PixelHeight softwareBitmap))
  | None => None
  end.

Definition send_log (c : MediaFrameReaderContext) (sensorFrame : SensorFrameRef)
    : list Event :=
  match _sensorFrameSink c with
  | Some sink => [EvSend sink sensorFrame]
  | None => []
  end.

(** The checks of lines 52-119: either the arrival is skipped, with the
    events of the skip, or the frame has no relative time and reading it
    raises, or the arrival goes on with a frame, its video frame, its
    bitmap and its relative time. *)
Inductive Validation : Type :=
  | Skipped (events : list Event)
  | Untimed
  | Valid (frame : MediaFrameReference) (videoMediaFrame : VideoMediaFrame_t)
      (bitmap : SoftwareBitmap) (Duration : Z).

Definition timestamp_of (build : Build) (Duration : Z) : Z :=
  RelativeTicksToAbsoluteTicks build Duration.

Definition arrival_log (build : Build) (c : MediaFrameReaderContext)
    (Duration : Z) : list Event :=
  verbose build (timestamp_relative (_sensorType c) Duration).

Definition failure_log (build : Build) (exception : PlatformException) : list Event :=
  if DBG_ENABLE_ERROR_LOGGING build
  then [EvTrace (FromHistoricalTargetTime_call_failed exception)]
  else [].

Definition validate (build : Build) (os : Perception) (c : MediaFrameReaderContext)
    (sender : MediaFrameReader) : Validation :=
  match TryAcquireLatestFrame sender with
  | None => Skipped [EvTrace (frame_is_null (_sensorType c))]
  | Some frame =>
  match VideoMediaFrame frame with
  | None => Skipped [EvTrace (VideoMediaFrame_is_null (_sensorType c))]
  | Some videoMediaFrame =>
  match SoftwareBitmap_ videoMediaFrame with
  | None => Skipped [EvTrace (SoftwareBitmap_is_null (_sensorType c))]
  | Some bitmap =>
  match SystemRelativeTime frame with
  | None => Untimed
  | Some Duration =>
  match FromHistoricalTargetTime os (timestamp_of build Duration) with
  | inr exception =>
      Skipped (arrival_log build c Duration ++ failure_log build exception)
  | inl _ => Valid frame videoMediaFrame bitmap Duration
  end end end end end.

(** The frame object of a valid arrival once all its properties are set. *)
Definition complete_frame (build : Build) (os : Perception)
    (c : MediaFrameReaderContext) (frame : MediaFrameReference)
    (bitmap : SoftwareBitmap) (Duration : Z) (cameraViewTransform : float4x4)
    : SensorFrame :=
  mk_SensorFrame (_sensorType c) (timestamp_of build Duration) (Copy bitmap)
    (origin_transform os c frame) cameraViewTransform
    (held_intrinsics build c frame (Copy bitmap)).

(** The handler in closed form. *)
Definition FrameArrived_closed (build : Build) (os : Perception)
    (sender : MediaFrameReader) (w : World) : Result unit * World :=
  let c := this w in
  let sensorFrame := length (heap w) in
  match validate build os c sender with
  | Skipped events => (Normal tt, mk_World c (heap w) (log w ++ events))
  | Untimed => (Raised NullReferenceException, w)
  | Valid frame videoMediaFrame bitmap Duration =>
      let v0 := new_SensorFrame_value (SensorFrame_FrameToOrigin build)
                  (SensorFrame_CameraViewTransform build)
                  (_sensorType c) (timestamp_of build Duration) (Copy bitmap) in
      if origin_cast_ok frame then
        match view_transform frame with
        | Normal m =>
            (Normal tt,
             mk_World (set_latestSensorFrame (Some sensorFrame) c)
               (heap w ++ [complete_frame build os c frame bitmap Duration m])
               (log w ++ arrival_log build c Duration
                  ++ origin_transform_log build os c frame
                  ++ view_transform_log build frame m
                  ++ send_log c sensorFrame
                  ++ [EvLock; EvStoreLatest sensorFrame; EvUnlock]))
        | Raised e =>
            (Raised e,
             mk_World c
               (heap w ++ [set_FrameToOrigin (origin_transform os c frame) v0])
               (log w ++ arrival_log build c Duration
                  ++ origin_transform_log build os c frame))
        | Undefined =>
            (Undefined,
             mk_World c
               (heap w ++ [set_FrameToOrigin (origin_transform os c frame) v0])
               (log w ++ arrival_log build c Duration
                  ++ origin_transform_log build os c frame))
        end
      else
        (Raised InvalidCastException,
         mk_World c (heap w ++ [v0]) (log w ++ arrival_log build c Duration))
  end.

(** ** Example arrivals *)

Definition ex_intrinsics_key : Guid :=
  (0x2b5d3c1e, 0x7a41, 0x4f0c, [0x8e; 0x12; 0x5a; 0x90; 0x3c; 0x44; 0xd1; 0x07])%Z.

(** What a new frame holds in its transforms in the examples: the fill
    pattern [0xCCCCCCCC] throughout. *)
Definition ex_fresh : float4x4 :=
  (mk_float4x4 0xCCCCCCCC 0xCCCCCCCC 0xCCCCCCCC 0xCCCCCCCC
               0xCCCCCCCC 0xCCCCCCCC 0xCCCCCCCC 0xCCCCCCCC
               0xCCCCCCCC 0xCCCCCCCC 0xCCCCCCCC 0xCCCCCCCC
               0xCCCCCCCC 0xCCCCCCCC 0xCCCCCCCC 0xCCCCCCCC)%Z.

Definition ex_build : Build :=
  mk_Build (fun ticks => ticks + 131000000000000000)%Z true true ex_intrinsics_key
    ex_fresh ex_fresh.

(** The identity matrix: [1.0f] is [0x3f800000]. *)
Definition ex_matrix : float4x4 :=
  (mk_float4x4 0x3f800000 0 0 0  0 0x3f800000 0 0
               0 0 0x3f800000 0  0 0 0 0x3f800000)%Z.

Definition ex_one : list Byte.byte := [Byte.x00; Byte.x00; Byte.x80; Byte.x3f].
Definition ex_nil : list Byte.byte := [Byte.x00; Byte.x00; Byte.x00; Byte.x00].

(** 64 bytes: the identity matrix again, as the reader delivers it. *)
Definition ex_view_bytes : list Byte.byte :=
  ex_one ++ ex_nil ++ ex_nil ++ ex_nil ++ ex_nil ++ ex_one ++ ex_nil ++ ex_nil
  ++ ex_nil ++ ex_nil ++ ex_one ++ ex_nil ++ ex_nil ++ ex_nil ++ ex_nil ++ ex_one.

Definition ex_os : Perception :=
  mk_Perception (fun _ => inl 1)
    (fun cs origin => if Nat.eqb cs 7 then Some ex_matrix else None).

Definition ex_os_failing : Perception :=
  mk_Perception (fun _ => inr (COMException 0x80070057)) (fun _ _ => None).

Definition ex_bitmap : SoftwareBitmap :=
  mk_SoftwareBitmap 160 480 [Byte.x10; Byte.x20; Byte.x30].

Definition ex_properties : gmap Guid Object :=
  <[c_MFSampleExtension_Spatial_CameraCoordinateSystem := ObjSpatialCoordinateSystem 7]>
    (<[c_MFSampleExtension_Spatial_CameraViewTransform := ObjByteArray ex_view_bytes]>
       (<[ex_intrinsics_key := ObjCameraIntrinsics 3]> ∅)).

Definition ex_frame : MediaFrameReference :=
  mk_MediaFrameReference (Some 1000%Z)
    (Some (mk_VideoMediaFrame (Some ex_bitmap) (Some 11))) ex_properties.

(** A frame that carries no metadata at all, with its own intrinsics. *)
Definition ex_bare_frame : MediaFrameReference :=
  mk_MediaFrameReference (Some 1000%Z)
    (Some (mk_VideoMediaFrame (Some ex_bitmap) (Some 11))) ∅.

Definition ex_sender : MediaFrameReader := mk_MediaFrameReader (Some ex_frame).
Definition ex_bare_sender : MediaFrameReader := mk_MediaFrameReader (Some ex_bare_frame).
Definition ex_idle_sender : MediaFrameReader := mk_MediaFrameReader None.

Definition ex_context : MediaFrameReaderContext :=
  MediaFrameReaderContext_new VisibleLightLeftFront (mk_SpatialPerception 0) (Some 5).

Definition ex_world : World := mk_World ex_context [] [].

Definition ex_sensorFrame : SensorFrame :=
  mk_SensorFrame VisibleLightLeftFront 131000000000001000 ex_bitmap
    ex_matrix ex_matrix
    (Some (mk_CameraIntrinsics (ObjCameraIntrinsics 3) 640 480)).

Definition ex_bare_sensorFrame : SensorFrame :=
  mk_SensorFrame VisibleLightLeftFront 131000000000001000 ex_bitmap
    zero zero None.

Definition ex_published (v : SensorFrame) (traces : list Event) : World :=
  mk_World (set_latestSensorFrame (Some 0) ex_context) [v]
    (traces ++ [EvSend 5 0; EvLock; EvStoreLatest 0; EvUnlock]).

Definition ex_after : World :=
  ex_published ex_sensorFrame
    [EvTrace (timestamp_relative VisibleLightLeftFront 1000);
     EvTrace (frameToOrigin_is ex_matrix);
     EvTrace (cameraViewTransform_is ex_matrix)].

Definition ex_bare_after : World :=
  ex_published ex_bare_sensorFrame
    [EvTrace (timestamp_relative VisibleLightLeftFront 1000)].

(** A bitmap that reports a width of [2 ^ 30] and carries no pixels, to
    evaluate the arithmetic of the width out of range. *)
Definition ex_wide_bitmap : SoftwareBitmap :=
  mk_SoftwareBitmap 1073741824 1 [].

Definition ex_wide_frame : MediaFrameReference :=
  mk_MediaFrameReference (Some 1000%Z)
    (Some (mk_VideoMediaFrame (Some ex_wide_bitmap) None))
    (<[ex_intrinsics_key := ObjCameraIntrinsics 3]> ∅).

Definition ex_wide_sender : MediaFrameReader := mk_MediaFrameReader (Some ex_wide_frame).

Definition ex_wide_sensorFrame : SensorFrame :=
  mk_SensorFrame VisibleLightLeftFront 131000000000001000 ex_wide_bitmap
    zero zero (Some (mk_CameraIntrinsics (ObjCameraIntrinsics 3) 0 1)).

Definition ex_wide_after : World :=
  ex_published ex_wide_sensorFrame
    [EvTrace (timestamp_relative VisibleLightLeftFront 1000)].

Definition ex_arrivals : list (Perception * MediaFrameReader) :=
  [(ex_os, ex_bare_sender); (ex_os, ex_idle_sender); (ex_os, ex_sender)].

Definition ex_final : World :=
  mk_World (set_latestSensorFrame (Some 1) ex_context)
    [ex_bare_sensorFrame; ex_sensorFrame]
    [EvTrace (timestamp_relative VisibleLightLeftFront 1000);
     EvSend 5 0; EvLock; EvStoreLatest 0; EvUnlock;
     EvTrace (frame_is_null VisibleLightLeftFront);
     EvTrace (timestamp_relative VisibleLightLeftFront 1000);
     EvTrace (frameToOrigin_is ex_matrix);
     EvTrace (cameraViewTransform_is ex_matrix);
     EvSend 5 1; EvLock; EvStoreLatest 1; EvUnlock].

Definition ex_mismatched_frame : MediaFrameReference :=
  mk_MediaFrameReference (Some 1000%Z)
    (Some (mk_VideoMediaFrame (Some ex_bitmap) None))
    (<[c_MFSampleExtension_Spatial_CameraCoordinateSystem := ObjByteArray ex_view_bytes]> ∅).

Definition ex_mismatched_sender : MediaFrameReader :=
  mk_MediaFrameReader (Some ex_mismatched_frame).

(** A frame whose [SystemRelativeTime] is null. *)
Definition ex_untimed_frame : MediaFrameReference :=
  mk_MediaFrameReference None (Some (mk_VideoMediaFrame (Some ex_bitmap) None)) ∅.

Definition ex_untimed_sender : MediaFrameReader :=
  mk_MediaFrameReader (Some ex_untimed_frame).

(** ** Reading logs, heaps and builds *)

(** The calls of [Send] in a log, oldest first. *)
Definition sent (events : list Event) : list (ISensorFrameSink * SensorFrameRef) :=
  omap (fun e => match e with EvSend sink r => Some (sink, r) | _ => None end) events.

(** The handles assigned to [_latestSensorFrame] in a log, oldest first. *)
Definition stored (events : list Event) : list SensorFrameRef :=
  omap (fun e => match e with EvStoreLatest r => Some r | _ => None end) events.

(** A log without its traces. *)
Definition non_traces (events : list Event) : list Event :=
  List.filter (fun e => negb (is_trace e)) events.

(** Where a thread stands with respect to [_latestSensorFrameMutex]: it
    does not hold it, or it holds it and has, or has not yet, accessed
    [_latestSensorFrame]. *)
Inductive LockState : Type :=
  | Free
  | Held (accessed : bool).

(** Reading a log from a lock state: the mutex is taken only when free and
    released only when held; [_latestSensorFrame] is read or written only
    while the mutex is held, exactly once per critical section; nothing
    else (no trace, no [Send]) happens while it is held; and the log ends
    with the mutex free. *)
Fixpoint lock_discipline (state : LockState) (events : list Event) : bool :=
  match events with
  | [] => match state with Free => true | Held _ => false end
  | EvLock :: rest =>
      match state with Free => lock_discipline (Held false) rest | Held _ => false end
  | EvUnlock :: rest =>
      match state with Held true => lock_discipline Free rest | _ => false end
  | EvStoreLatest _ :: rest | EvLoadLatest _ :: rest =>
      match state with Held false => lock_discipline (Held true) rest | _ => false end
  | EvTrace _ :: rest | EvSend _ _ :: rest =>
      match state with Free => lock_discipline Free rest | Held _ => false end
  end.

(** The handle in [_latestSensorFrame], if any, is the address of a frame
    object. *)
Definition valid_handle (w : World) : Prop :=
  forall r, _latestSensorFrame (this w) = Some r -> is_Some (heap w !! r).

(** The same build with other logging switches. *)
Definition with_logging (verbose_logging error_logging : bool) (build : Build) : Build :=
  mk_Build (RelativeTicksToAbsoluteTicks build) verbose_logging error_logging
    (MFSampleExtension_SensorStreaming_CameraIntrinsics build)
    (SensorFrame_FrameToOrigin build) (SensorFrame_CameraViewTransform build).

(** The same arrival, with the object [o] stored under [key] in the
    property set of the frame. *)
Definition with_property (key : Guid) (o : Object) (sender : MediaFrameReader)
    : MediaFrameReader :=
  mk_MediaFrameReader
    (match TryAcquireLatestFrame sender with
     | Some frame =>
         Some (mk_MediaFrameReference (SystemRelativeTime frame)
                 (VideoMediaFrame frame) (<[key := o]> (Properties frame)))
     | None => None
     end).

(** A float is a 32 bit pattern. *)
Definition is_float (x : float) : Prop := (0 <= x < 2 ^ 32)%Z.

(** Facts about the example arrivals hold by evaluation. *)
Ltac evaluate := vm_compute; reflexivity.

(** ** Bytes and floats *)

Lemma byte_range (b : Byte.byte) : (0 <= Z.of_N (Byte.to_N b) < 256)%Z.
Proof. pose proof (Byte.to_N_bounded b). lia. Qed.

Lemma byte_of_Z (b : Byte.byte) :
  Byte.of_N (Z.to_N (Z.of_N (Byte.to_N b))) = Some b.
Proof. rewrite N2Z.id. apply Byte.of_to_N. Qed.

Lemma low_digit (x y : Z) : (0 <= x < 256)%Z -> ((x + 256 * y) mod 256 = x)%Z.
Proof.
  intros Hx. symmetry. apply Z.mod_unique with (q := y); lia.
Qed.

Lemma high_digits (x y : Z) : (0 <= x < 256)%Z -> ((x + 256 * y) / 256 = y)%Z.
Proof.
  intros Hx. symmetry. apply Z.div_unique with (r := x); lia.
Qed.

Lemma bytes_of_float_of_bytes (b0 b1 b2 b3 : Byte.byte) :
  bytes_of_float (float_of_bytes b0 b1 b2 b3) = [b0; b1; b2; b3].
Proof.
  pose proof (byte_range b0) as H0. pose proof (byte_range b1) as H1.
  pose proof (byte_range b2) as H2. pose proof (byte_range b3) as H3.
  unfold bytes_of_float, byte_of_float, float_of_bytes.
  set (x0 := Z.of_N (Byte.to_N b0)) in *. set (x1 := Z.of_N (Byte.to_N b1)) in *.
  set (x2 := Z.of_N (Byte.to_N b2)) in *. set (x3 := Z.of_N (Byte.to_N b3)) in *.
  replace (x0 + 2 ^ 8 * x1 + 2 ^ 16 * x2 + 2 ^ 24 * x3)%Z
    with (x0 + 256 * (x1 + 256 * (x2 + 256 * (x3 + 256 * 0))))%Z by lia.
  change (2 ^ (8 * 0))%Z with 1%Z. change (2 ^ (8 * 1))%Z with 256%Z.
  change (2 ^ (8 * 2))%Z with (256 * 256)%Z.
  change (2 ^ (8 * 3))%Z with (256 * 256 * 256)%Z.
  rewrite Z.div_1_r.
  rewrite <- !Z.div_div by lia.
  rewrite !high_digits by assumption.
  rewrite !low_digit by assumption.
  subst x0 x1 x2 x3. now rewrite !byte_of_Z.
Qed.

Lemma floats_of_bytes_take (n : nat) : forall (Data : list Byte.byte) (ws : list float),
  floats_of_bytes n Data = Some ws ->
  flat_map bytes_of_float ws = take (4 * n) Data /\ length ws = n.
Proof.
  induction n as [|n IH]; intros Data ws H; simpl in H.
  - injection H as <-. now rewrite take_0.
  - destruct Data as [|b0 [|b1 [|b2 [|b3 rest]]]]; try discriminate.
    destruct (floats_of_bytes n rest) as [ws'|] eqn:E; [|discriminate].
    injection H as <-. destruct (IH _ _ E) as [IH1 IH2].
    replace (4 * S n) with (S (S (S (S (4 * n))))) by lia.
    cbn [flat_map take length]. rewrite bytes_of_float_of_bytes, IH1, IH2.
    split; reflexivity.
Qed.

Lemma floats_of_bytes_length (n : nat) : forall Data : list Byte.byte,
  4 * n <= length Data <-> is_Some (floats_of_bytes n Data).
Proof.
  induction n as [|n IH]; intros Data; simpl floats_of_bytes.
  - split; [eauto | lia].
  - destruct Data as [|b0 [|b1 [|b2 [|b3 rest]]]]; simpl length;
      try (split; [lia | intros [? ?]; discriminate]).
    specialize (IH rest). destruct (floats_of_bytes n rest).
    + split; [eauto | intros _; assert (4 * n <= length rest) by (apply IH; eauto); lia].
    + split; [intros; assert (is_Some (@None (list float))) as [? ?] by (apply IH; lia);
              discriminate | intros [? ?]; discriminate].
Qed.

(** The reinterpretation is byte exact: the matrix read occupies the very
    64 bytes it was read from. *)
Lemma reinterpret_float4x4_bytes (Data : list Byte.byte) (m : float4x4) :
  reinterpret_float4x4 Data = Some m -> bytes_of_float4x4 m = take 64 Data.
Proof.
  unfold reinterpret_float4x4. intros H.
  destruct (floats_of_bytes 16 Data) as [ws|] eqn:E; [|discriminate].
  destruct (floats_of_bytes_take _ _ _ E) as [Hb Hl].
  do 17 (destruct ws as [|? ws]; try discriminate).
  injection H as <-. exact Hb.
Qed.

Lemma reinterpret_float4x4_defined (Data : list Byte.byte) :
  64 <= length Data <-> is_Some (reinterpret_float4x4 Data).
Proof.
  change 64 with (4 * 16). rewrite floats_of_bytes_length.
  unfold reinterpret_float4x4.
  destruct (floats_of_bytes 16 Data) as [ws|] eqn:E.
  - destruct (floats_of_bytes_take _ _ _ E) as [_ Hl].
    do 17 (destruct ws as [|? ws]; try discriminate). split; eauto.
  - split; intros [? ?]; discriminate.
Qed.

(** ** The handler and its closed form *)

Lemma modify_last (c : MediaFrameReaderContext) (h : list SensorFrame)
    (v : SensorFrame) (l : list Event) (f : SensorFrame -> SensorFrame) :
  modify (length h) f (mk_World c (h ++ [v]) l)
  = (Normal tt, mk_World c (h ++ [f v]) l).
Proof.
  unfold modify. cbn [heap this log].
  rewrite list_lookup_middle by reflexivity.
  replace (length h) with (length h + 0) at 1 by lia.
  rewrite insert_app_r. reflexivity.
Qed.

Lemma ExtractFrameToOrigin_ok build os frame c h v l :
  origin_cast_ok frame = true ->
  ExtractFrameToOrigin build os frame (length h) (mk_World c (h ++ [v]) l)
  = (Normal tt,
     mk_World c (h ++ [set_FrameToOrigin (origin_transform os c frame) v])
       (l ++ origin_transform_log build os c frame)).
Proof.
  unfold origin_cast_ok, origin_transform, origin_transform_log,
    origin_transform_reference, ExtractFrameToOrigin, HasKey, Lookup, verbose.
  intros Hok. unfold mbind, M_bind, get_this. cbn [this].
  destruct (Properties frame !! c_MFSampleExtension_Spatial_CameraCoordinateSystem)
    as [[| cs | | |]|]; try discriminate; cbn.
  - unfold put_FrameToOrigin. rewrite modify_last, app_nil_r. reflexivity.
  - destruct (TryGetTransformTo os cs _) as [m|]; cbn.
    + destruct (DBG_ENABLE_VERBOSE_LOGGING build); cbn;
        unfold put_FrameToOrigin; rewrite modify_last; cbn;
        rewrite ?app_nil_r; reflexivity.
    + unfold put_FrameToOrigin. rewrite modify_last, app_nil_r. reflexivity.
  - unfold put_FrameToOrigin. rewrite modify_last, app_nil_r. reflexivity.
Qed.

Lemma ExtractFrameToOrigin_raise build os frame sensorFrame w :
  origin_cast_ok frame = false ->
  ExtractFrameToOrigin build os frame sensorFrame w = (Raised InvalidCastException, w).
Proof.
  unfold origin_cast_ok, ExtractFrameToOrigin, HasKey, Lookup.
  intros Hok. unfold mbind, M_bind, get_this.
  destruct (Properties frame !! c_MFSampleExtension_Spatial_CameraCoordinateSystem)
    as [[| cs | | |]|]; try discriminate; reflexivity.
Qed.

Lemma ExtractCameraViewTransform_run build frame c h v l :
  ExtractCameraViewTransform build frame (length h) (mk_World c (h ++ [v]) l)
  = match view_transform frame with
    | Normal m =>
        (Normal tt,
         mk_World c (h ++ [set_CameraViewTransform m v])
           (l ++ view_transform_log build frame m))
    | Raised e => (Raised e, mk_World c (h ++ [v]) l)
    | Undefined => (Undefined, mk_World c (h ++ [v]) l)
    end.
Proof.
  unfold view_transform, view_transform_log,
    ExtractCameraViewTransform, HasKey, Lookup, verbose.
  unfold mbind, M_bind.
  destruct (Properties frame !! c_MFSampleExtension_Spatial_CameraViewTransform)
    as [[| | bytes | |]|]; cbn; try reflexivity.
  - unfold load_float4x4.
    destruct (reinterpret_float4x4 bytes) as [m|]; cbn; [|reflexivity].
    unfold put_CameraViewTransform. rewrite modify_last.
    destruct (DBG_ENABLE_VERBOSE_LOGGING build); cbn; rewrite ?app_nil_r; reflexivity.
  - unfold put_CameraViewTransform. rewrite modify_last, app_nil_r. reflexivity.
Qed.

Lemma HoldCameraIntrinsics_run build frame videoMediaFrame softwareBitmap c h v l :
  HoldCameraIntrinsics build frame videoMediaFrame softwareBitmap (length h)
    (mk_World c (h ++ [v]) l)
  = (Normal tt,
     mk_World c
       (h ++ [match held_intrinsics build c frame softwareBitmap with
              | Some ci => set_CameraIntrinsics ci v
              | None => v
              end]) l).
Proof.
  unfold held_intrinsics, image_width, HoldCameraIntrinsics, HasKey, Lookup.
  unfold mbind, M_bind, get_this. cbn [this].
  destruct (Properties frame !! MFSampleExtension_SensorStreaming_CameraIntrinsics build);
    cbn; [|reflexivity].
  unfold put_CameraIntrinsics. rewrite modify_last. reflexivity.
Qed.

Lemma Publish_run sensorFrame c h l :
  Publish sensorFrame (mk_World c h l)
  = (Normal tt,
     mk_World (set_latestSensorFrame (Some sensorFrame) c) h
       (l ++ send_log c sensorFrame ++ [EvLock; EvStoreLatest sensorFrame; EvUnlock])).
Proof.
  unfold Publish, send_log, mbind, M_bind, get_this, emit, put_latestSensorFrame.
  cbn [this heap log].
  destruct (_sensorFrameSink c); cbn; rewrite <- ?app_assoc; reflexivity.
Qed.

Lemma World_eta (w : World) : mk_World (this w) (heap w) (log w) = w.
Proof. now destruct w. Qed.

Lemma FrameArrived_run build os sender w :
  FrameArrived build os sender w = FrameArrived_closed build os sender w.
Proof.
  unfold FrameArrived, FrameArrived_closed, validate.
  rewrite <- (World_eta w) at 1.
  unfold mbind at 1. unfold M_bind at 1. unfold get_this at 1. cbn [this heap log].
  destruct (TryAcquireLatestFrame sender) as [frame|]; [|reflexivity].
  destruct (VideoMediaFrame frame) as [videoMediaFrame|]; [|reflexivity].
  destruct (SoftwareBitmap_ videoMediaFrame) as [bitmap|]; [|reflexivity].
  unfold SystemRelativeTime_Value.
  destruct (SystemRelativeTime frame) as [Duration|].
  2: { unfold mbind, M_bind, when.
       destruct (DBG_ENABLE_VERBOSE_LOGGING build); cbn; now rewrite World_eta. }
  unfold mbind at 1. unfold M_bind at 1.
  assert (when (DBG_ENABLE_VERBOSE_LOGGING build)
            (Duration0 ← mret Duration;
             trace (timestamp_relative (_sensorType (this w)) Duration0))
            (mk_World (this w) (heap w) (log w))
          = (Normal tt,
             mk_World (this w) (heap w) (log w ++ arrival_log build (this w) Duration)))
    as ->.
  { unfold arrival_log, verbose, when.
    destruct (DBG_ENABLE_VERBOSE_LOGGING build); cbn; rewrite ?app_nil_r; reflexivity. }
  unfold mbind at 1. unfold M_bind at 1. cbn [mret M_ret].
  unfold mbind at 1. unfold M_bind at 1.
  unfold try_catch, call_FromHistoricalTargetTime.
  fold (timestamp_of build Duration).
  destruct (FromHistoricalTargetTime os (timestamp_of build Duration))
    as [perceptionTimestamp|exception]; cbn [mret M_ret mthrow M_throw].
  - unfold mbind at 1. unfold M_bind at 1.
    unfold new_SensorFrame at 1. unfold ref_new at 1. cbn [this heap log].
    unfold mbind at 1. unfold M_bind at 1.
    destruct (origin_cast_ok frame) eqn:Horigin.
    + rewrite ExtractFrameToOrigin_ok by assumption.
      unfold mbind at 1. unfold M_bind at 1.
      rewrite ExtractCameraViewTransform_run.
      destruct (view_transform frame) as [m|e|];
        rewrite <- ?app_assoc; try reflexivity.
      unfold mbind at 1. unfold M_bind at 1.
      rewrite HoldCameraIntrinsics_run, Publish_run.
      unfold complete_frame, set_CameraViewTransform, set_FrameToOrigin,
        new_SensorFrame_value.
      destruct (held_intrinsics build (this w) frame (Copy bitmap));
        cbn; rewrite <- ?app_assoc; reflexivity.
    + rewrite ExtractFrameToOrigin_raise by assumption. reflexivity.
  - unfold failure_log, when, trace, emit.
    destruct (DBG_ENABLE_ERROR_LOGGING build); cbn;
      rewrite <- ?app_assoc, ?app_nil_r; reflexivity.
Qed.

Lemma validate_Valid build os c sender frame videoMediaFrame bitmap Duration :
  validate build os c sender = Valid frame videoMediaFrame bitmap Duration ->
  TryAcquireLatestFrame sender = Some frame
  /\ VideoMediaFrame frame = Some videoMediaFrame
  /\ SoftwareBitmap_ videoMediaFrame = Some bitmap
  /\ SystemRelativeTime frame = Some Duration
  /\ exists perceptionTimestamp,
       FromHistoricalTargetTime os (timestamp_of build Duration)
       = inl perceptionTimestamp.
Proof.
  unfold validate. intros H.
  destruct (TryAcquireLatestFrame sender) as [f|]; [|discriminate].
  destruct (VideoMediaFrame f) as [vmf|] eqn:Hv; [|discriminate].
  destruct (SoftwareBitmap_ vmf) as [b|] eqn:Hb; [|discriminate].
  destruct (SystemRelativeTime f) as [d|] eqn:Hd; [|discriminate].
  destruct (FromHistoricalTargetTime os (timestamp_of build d)) as [t|] eqn:Ht;
    [|discriminate].
  injection H as <- <- <- <-. eauto 10.
Qed.

Lemma validate_Valid_intro build os c sender frame videoMediaFrame bitmap Duration t :
  TryAcquireLatestFrame sender = Some frame ->
  VideoMediaFrame frame = Some videoMediaFrame ->
  SoftwareBitmap_ videoMediaFrame = Some bitmap ->
  SystemRelativeTime frame = Some Duration ->
  FromHistoricalTargetTime os (timestamp_of build Duration) = inl t ->
  validate build os c sender = Valid frame videoMediaFrame bitmap Duration.
Proof. unfold validate. now intros -> -> -> -> ->. Qed.

Lemma lookup_fresh {A : Type} (h : list A) : h !! length h = None.
Proof. apply lookup_ge_None_2. lia. Qed.

Lemma lookup_snoc {A : Type} (h : list A) (v : A) : (h ++ [v]) !! length h = Some v.
Proof. now apply list_lookup_middle. Qed.

(** A produced frame comes from a valid arrival whose property casts all
    succeeded, and is the completed frame object, published. *)
Lemma produces_inv build os sender w sensorFrame v w' :
  produces build os sender w sensorFrame v w' ->
  exists frame videoMediaFrame bitmap Duration m,
    validate build os (this w) sender = Valid frame videoMediaFrame bitmap Duration
    /\ origin_cast_ok frame = true
    /\ view_transform frame = Normal m
    /\ sensorFrame = length (heap w)
    /\ v = complete_frame build os (this w) frame bitmap Duration m
    /\ w' = mk_World (set_latestSensorFrame (Some sensorFrame) (this w))
              (heap w ++ [v])
              (log w ++ arrival_log build (this w) Duration
                 ++ origin_transform_log build os (this w) frame
                 ++ view_transform_log build frame m
                 ++ send_log (this w) sensorFrame
                 ++ [EvLock; EvStoreLatest sensorFrame; EvUnlock]).
Proof.
  unfold produces, produced_by. rewrite FrameArrived_run. unfold FrameArrived_closed.
  intros [Hrun Hv].
  destruct (validate build os (this w) sender)
    as [events| |frame videoMediaFrame bitmap Duration].
  - injection Hrun as <-. cbn [heap] in Hv. now rewrite lookup_fresh in Hv.
  - discriminate.
  - destruct (origin_cast_ok frame) eqn:Ho; [|discriminate].
    destruct (view_transform frame) as [m| |] eqn:Hm; try discriminate.
    injection Hrun as <-. cbn [heap] in Hv. rewrite lookup_snoc in Hv.
    injection Hv as <- <-. exists frame, videoMediaFrame, bitmap, Duration, m.
    repeat split; assumption || reflexivity.
Qed.

Lemma produces_frame build os sender w sensorFrame v w' frame :
  produces build os sender w sensorFrame v w' ->
  TryAcquireLatestFrame sender = Some frame ->
  exists videoMediaFrame bitmap Duration m,
    VideoMediaFrame frame = Some videoMediaFrame
    /\ SoftwareBitmap_ videoMediaFrame = Some bitmap
    /\ SystemRelativeTime frame = Some Duration
    /\ origin_cast_ok frame = true
    /\ view_transform frame = Normal m
    /\ v = complete_frame build os (this w) frame bitmap Duration m.
Proof.
  intros H Hframe.
  destruct (produces_inv _ _ _ _ _ _ _ H)
    as (frame' & videoMediaFrame & bitmap & Duration & m & Hvalid & Ho & Hm & _ & Hv & _).
  apply validate_Valid in Hvalid as (Hf & Hvmf & Hb & Hd & _).
  rewrite Hframe in Hf. injection Hf as <-. eauto 12.
Qed.

(** ** Arrivals that are skipped *)

(** C2. When [TryAcquireLatestFrame] answers null, or the frame has no
    [VideoMediaFrame], or the video frame has no [SoftwareBitmap], the
    handler returns normally and the only thing it did is one call of
    [dbg::trace]: the context (with its latest frame) and the heap are as
    before, and the log has grown by that one trace, so nothing was sent to
    the sink. *)
Theorem FrameArrived_missing_data build os sender w :
  (TryAcquireLatestFrame sender = None
   \/ (exists frame,
         TryAcquireLatestFrame sender = Some frame
         /\ VideoMediaFrame frame = None)
   \/ (exists frame videoMediaFrame,
         TryAcquireLatestFrame sender = Some frame
         /\ VideoMediaFrame frame = Some videoMediaFrame
         /\ SoftwareBitmap_ videoMediaFrame = None)) ->
  exists msg,
    FrameArrived build os sender w
    = (Normal tt, mk_World (this w) (heap w) (log w ++ [EvTrace msg])).
Proof.
  rewrite FrameArrived_run. unfold FrameArrived_closed, validate.
  intros [-> | [(frame & -> & ->) | (frame & videoMediaFrame & -> & -> & ->)]];
    eexists; reflexivity.
Qed.

Lemma FrameArrived_missing_data_witness :
  TryAcquireLatestFrame ex_idle_sender = None
  /\ exists msg,
       FrameArrived ex_build ex_os ex_idle_sender ex_world
       = (Normal tt, mk_World (this ex_world) (heap ex_world)
                       (log ex_world ++ [EvTrace msg])).
Proof.
  split; [reflexivity|].
  apply (FrameArrived_missing_data ex_build ex_os ex_idle_sender ex_world).
  left. reflexivity.
Defined.

(** C3. When the frame passes the three checks, has a relative time and
    [PerceptionTimestampHelper::FromHistoricalTargetTime] raises, the
    exception is caught and the handler returns: no [SensorFrame] was
    allocated (the heap is as before), the context and its latest frame are
    as before, and the log has grown by traces only (the verbose trace of
    the time stamp and the trace of the failure, each if compiled in), so
    nothing was sent to the sink. *)
Theorem FrameArrived_pose_failure
    build os sender w frame videoMediaFrame bitmap Duration exception :
  TryAcquireLatestFrame sender = Some frame ->
  VideoMediaFrame frame = Some videoMediaFrame ->
  SoftwareBitmap_ videoMediaFrame = Some bitmap ->
  SystemRelativeTime frame = Some Duration ->
  FromHistoricalTargetTime os (RelativeTicksToAbsoluteTicks build Duration)
  = inr exception ->
  exists traces,
    FrameArrived build os sender w
    = (Normal tt, mk_World (this w) (heap w) (log w ++ traces))
    /\ forallb is_trace traces = true
    /\ traces = (if DBG_ENABLE_VERBOSE_LOGGING build
                 then [EvTrace (timestamp_relative (_sensorType (this w)) Duration)]
                 else [])
                ++ (if DBG_ENABLE_ERROR_LOGGING build
                    then [EvTrace (FromHistoricalTargetTime_call_failed exception)]
                    else []).
Proof.
  intros Hframe Hvideo Hbitmap Htime Hpose.
  rewrite FrameArrived_run. unfold FrameArrived_closed, validate, timestamp_of.
  rewrite Hframe, Hvideo, Hbitmap, Htime, Hpose.
  eexists. split; [reflexivity|].
  unfold arrival_log, failure_log, verbose.
  split; [|reflexivity].
  destruct (DBG_ENABLE_VERBOSE_LOGGING build), (DBG_ENABLE_ERROR_LOGGING build);
    reflexivity.
Qed.

Lemma FrameArrived_pose_failure_witness :
  FrameArrived ex_build ex_os_failing ex_sender ex_world
  = (Normal tt,
     mk_World ex_context []
       [EvTrace (timestamp_relative VisibleLightLeftFront 1000);
        EvTrace (FromHistoricalTargetTime_call_failed (COMException 0x80070057))]).
Proof.
  destruct (FrameArrived_pose_failure ex_build ex_os_failing ex_sender ex_world
              ex_frame (mk_VideoMediaFrame (Some ex_bitmap) (Some 11)) ex_bitmap
              1000 (COMException 0x80070057)
              eq_refl eq_refl eq_refl eq_refl eq_refl) as (traces & Hrun & _ & ->).
  exact Hrun.
Defined.

(** ** The frame a successful arrival produces *)

(** C4. In the frame produced by a successful arrival, [FrameToOrigin] is
    the all-zero matrix when the property set has no entry under
    [MFSampleExtension_Spatial_CameraCoordinateSystem], and when the
    coordinate system stored there has no transform to the coordinate
    system of the origin frame of reference ([TryGetTransformTo] answers
    null); it is the transform [TryGetTransformTo] answers otherwise.  (A
    null stored under the key counts as no coordinate system; no other
    kind of object is stored there when the arrival is successful.) *)
Theorem FrameArrived_FrameToOrigin build os sender w sensorFrame v w' frame :
  produces build os sender w sensorFrame v w' ->
  TryAcquireLatestFrame sender = Some frame ->
  let key := c_MFSampleExtension_Spatial_CameraCoordinateSystem in
  let origin := OriginCoordinateSystem (_spatialPerception (this w)) in
  (Properties frame !! key = None -> FrameToOrigin v = zero)
  /\ (forall cs,
        Properties frame !! key = Some (ObjSpatialCoordinateSystem cs) ->
        TryGetTransformTo os cs origin = None ->
        FrameToOrigin v = zero)
  /\ (forall cs m,
        Properties frame !! key = Some (ObjSpatialCoordinateSystem cs) ->
        TryGetTransformTo os cs origin = Some m ->
        FrameToOrigin v = m)
  /\ (Properties frame !! key = Some ObjNull -> FrameToOrigin v = zero)
  /\ (Properties frame !! key = None
      \/ Properties frame !! key = Some ObjNull
      \/ exists cs, Properties frame !! key = Some (ObjSpatialCoordinateSystem cs)).
Proof.
  intros H Hframe key origin.
  destruct (produces_frame _ _ _ _ _ _ _ _ H Hframe)
    as (videoMediaFrame & bitmap & Duration & m' & _ & _ & _ & Hok & _ & ->).
  unfold complete_frame, origin_transform, origin_transform_reference.
  cbn [FrameToOrigin]. fold key. fold origin.
  unfold origin_cast_ok in Hok. fold key in Hok.
  split; [|split; [|split; [|split]]].
  - now intros ->.
  - now intros cs -> ->.
  - now intros cs m -> ->.
  - now intros ->.
  - destruct (Properties frame !! key) as [[| cs | | |]|]; try discriminate; eauto.
Qed.

Lemma FrameArrived_FrameToOrigin_witness :
  produces ex_build ex_os ex_sender ex_world 0 ex_sensorFrame ex_after
  /\ produces ex_build ex_os ex_bare_sender ex_world 0 ex_bare_sensorFrame ex_bare_after
  /\ FrameToOrigin ex_sensorFrame = ex_matrix
  /\ FrameToOrigin ex_bare_sensorFrame = zero.
Proof.
  assert (produces ex_build ex_os ex_sender ex_world 0 ex_sensorFrame ex_after) as H1
    by (split; evaluate).
  assert (produces ex_build ex_os ex_bare_sender ex_world 0 ex_bare_sensorFrame
            ex_bare_after) as H2
    by (split; evaluate).
  split; [exact H1 | split; [exact H2 | split]].
  - destruct (FrameArrived_FrameToOrigin _ _ _ _ _ _ _ ex_frame H1 eq_refl)
      as (_ & _ & Hsome & _).
    apply (Hsome 7); evaluate.
  - destruct (FrameArrived_FrameToOrigin _ _ _ _ _ _ _ ex_bare_frame H2 eq_refl)
      as (Hnone & _).
    apply Hnone. evaluate.
Defined.

(** C5. In the frame produced by a successful arrival, when the property
    set holds the byte array [bytes] under
    [MFSampleExtension_Spatial_CameraViewTransform], [CameraViewTransform]
    is the matrix read from the first 64 bytes of [bytes] as they are: its
    own 64 bytes are those bytes again.  When the key is absent it is the
    all-zero matrix.  (When the arrival is successful, nothing but a byte
    array is stored under the key, and it has the 64 bytes that are read.) *)
Theorem FrameArrived_CameraViewTransform build os sender w sensorFrame v w' frame :
  produces build os sender w sensorFrame v w' ->
  TryAcquireLatestFrame sender = Some frame ->
  let key := c_MFSampleExtension_Spatial_CameraViewTransform in
  (forall bytes,
     Properties frame !! key = Some (ObjByteArray bytes) ->
     64 <= length bytes
     /\ reinterpret_float4x4 bytes = Some (CameraViewTransform v)
     /\ bytes_of_float4x4 (CameraViewTransform v) = take 64 bytes)
  /\ (Properties frame !! key = None -> CameraViewTransform v = zero)
  /\ (Properties frame !! key = None
      \/ exists bytes, Properties frame !! key = Some (ObjByteArray bytes)).
Proof.
  intros H Hframe key.
  destruct (produces_frame _ _ _ _ _ _ _ _ H Hframe)
    as (videoMediaFrame & bitmap & Duration & m & _ & _ & _ & _ & Hm & ->).
  unfold complete_frame. cbn [CameraViewTransform].
  unfold view_transform in Hm. fold key in Hm.
  split; [|split].
  - intros bytes Hbytes. rewrite Hbytes in Hm.
    destruct (reinterpret_float4x4 bytes) as [m'|] eqn:Hr; [|discriminate].
    injection Hm as <-.
    split; [apply reinterpret_float4x4_defined; eauto|].
    split; [reflexivity|]. now apply reinterpret_float4x4_bytes.
  - intros Hnone. rewrite Hnone in Hm. now injection Hm as <-.
  - destruct (Properties frame !! key) as [[| | bytes | |]|]; try discriminate; eauto.
Qed.

Lemma FrameArrived_CameraViewTransform_witness :
  produces ex_build ex_os ex_sender ex_world 0 ex_sensorFrame ex_after
  /\ produces ex_build ex_os ex_bare_sender ex_world 0 ex_bare_sensorFrame ex_bare_after
  /\ bytes_of_float4x4 (CameraViewTransform ex_sensorFrame) = take 64 ex_view_bytes
  /\ CameraViewTransform ex_bare_sensorFrame = zero.
Proof.
  assert (produces ex_build ex_os ex_sender ex_world 0 ex_sensorFrame ex_after) as H1
    by (split; evaluate).
  assert (produces ex_build ex_os ex_bare_sender ex_world 0 ex_bare_sensorFrame
            ex_bare_after) as H2
    by (split; evaluate).
  split; [exact H1 | split; [exact H2 | split]].
  - destruct (FrameArrived_CameraViewTransform _ _ _ _ _ _ _ ex_frame H1 eq_refl)
      as (Hbytes & _).
    apply (Hbytes ex_view_bytes). evaluate.
  - destruct (FrameArrived_CameraViewTransform _ _ _ _ _ _ _ ex_bare_frame H2 eq_refl)
      as (_ & Hnone & _).
    apply Hnone. evaluate.
Defined.

Lemma is_VisibleLight_In (sensorType : SensorType) :
  is_VisibleLight sensorType = true <-> In sensorType visible_light_cameras.
Proof.
  unfold is_VisibleLight, visible_light_cameras.
  destruct sensorType; cbn; split; intros H; try discriminate; auto;
    decompose [or] H; try discriminate; contradiction.
Qed.

Lemma CameraIntrinsics_of_complete_frame build os c frame bitmap Duration m :
  CameraIntrinsics_of (complete_frame build os c frame bitmap Duration m)
  = held_intrinsics build c frame (Copy bitmap).
Proof. reflexivity. Qed.

(** C6. The frame of a successful arrival that carries an object under
    [MFSampleExtension_SensorStreaming_CameraIntrinsics] holds a
    [CameraIntrinsics] made of that object, of the height of the bitmap and
    of a width: four times the reported width [W] for the four visible
    light cameras, and [W] for every other sensor type.  [W] is the width
    of a bitmap a frame source delivers: it is not negative and its
    fourfold is an [unsigned int], that is, [W < 2 ^ 30]. *)
Theorem FrameArrived_CameraIntrinsics_width
    build os sender w sensorFrame v w' frame videoMediaFrame bitmap cameraIntrinsics :
  produces build os sender w sensorFrame v w' ->
  TryAcquireLatestFrame sender = Some frame ->
  VideoMediaFrame frame = Some videoMediaFrame ->
  SoftwareBitmap_ videoMediaFrame = Some bitmap ->
  Properties frame !! MFSampleExtension_SensorStreaming_CameraIntrinsics build
    = Some cameraIntrinsics ->
  (0 <= PixelWidth bitmap < 2 ^ 30)%Z ->
  exists ci,
    CameraIntrinsics_of v = Some ci
    /\ sensorStreamingCameraIntrinsics ci = cameraIntrinsics
    /\ ImageHeight ci = PixelHeight bitmap
    /\ (In (_sensorType (this w)) visible_light_cameras ->
        ImageWidth ci = (4 * PixelWidth bitmap)%Z)
    /\ (~ In (_sensorType (this w)) visible_light_cameras ->
        ImageWidth ci = PixelWidth bitmap).
Proof.
  intros H Hframe Hvideo Hbitmap Hkey Hwidth.
  destruct (produces_frame _ _ _ _ _ _ _ _ H Hframe)
    as (videoMediaFrame' & bitmap' & Duration & m & Hvideo' & Hbitmap' & _ & _ & _ & ->).
  rewrite Hvideo in Hvideo'. injection Hvideo' as <-.
  rewrite Hbitmap in Hbitmap'. injection Hbitmap' as <-.
  rewrite CameraIntrinsics_of_complete_frame. unfold held_intrinsics.
  rewrite Hkey. eexists. split; [reflexivity|].
  cbn [sensorStreamingCameraIntrinsics ImageHeight ImageWidth Copy PixelHeight].
  split; [reflexivity|]. split; [reflexivity|].
  unfold image_width, uint32. cbn [PixelWidth].
  rewrite (Z.mod_small (PixelWidth bitmap)) by lia.
  split; intros Hcamera.
  - apply is_VisibleLight_In in Hcamera. rewrite Hcamera.
    rewrite (Z.mul_comm (PixelWidth bitmap) 4). apply Z.mod_small. lia.
  - destruct (is_VisibleLight (_sensorType (this w))) eqn:Hvisible; [|reflexivity].
    apply is_VisibleLight_In in Hvisible. contradiction.
Qed.

Lemma FrameArrived_CameraIntrinsics_width_witness :
  produces ex_build ex_os ex_sender ex_world 0 ex_sensorFrame ex_after
  /\ PixelWidth ex_bitmap = 160%Z
  /\ exists ci,
       CameraIntrinsics_of ex_sensorFrame = Some ci
       /\ ImageWidth ci = 640%Z /\ ImageHeight ci = 480%Z.
Proof.
  assert (produces ex_build ex_os ex_sender ex_world 0 ex_sensorFrame ex_after) as H1
    by (split; evaluate).
  split; [exact H1 | split; [reflexivity|]].
  destruct (FrameArrived_CameraIntrinsics_width
              ex_build ex_os ex_sender ex_world 0 ex_sensorFrame ex_after
              ex_frame (mk_VideoMediaFrame (Some ex_bitmap) (Some 11)) ex_bitmap
              (ObjCameraIntrinsics 3) H1 eq_refl eq_refl eq_refl)
    as (ci & Hci & _ & Hheight & Hvisible & _).
  - evaluate.
  - cbn; lia.
  - exists ci. split; [exact Hci|]. split; [|exact Hheight].
    apply Hvisible. cbn; auto.
Defined.

Lemma with_CameraIntrinsics_run build os sender w ci :
  FrameArrived_closed build os (with_CameraIntrinsics ci sender) w
  = FrameArrived_closed build os sender w.
Proof.
  unfold FrameArrived_closed, validate, with_CameraIntrinsics.
  cbn [TryAcquireLatestFrame].
  destruct (TryAcquireLatestFrame sender) as [[time [videoMediaFrame|] props]|];
    cbn; try reflexivity.
  destruct videoMediaFrame as [[bitmap|] ci']; cbn; try reflexivity.
  destruct time as [Duration|]; [|reflexivity].
  unfold timestamp_of.
  destruct (FromHistoricalTargetTime os (RelativeTicksToAbsoluteTicks build Duration));
    reflexivity.
Qed.

(** C9. When the property set has no entry under
    [MFSampleExtension_SensorStreaming_CameraIntrinsics], the frame a
    successful arrival produces has no [CameraIntrinsics], whatever
    [VideoMediaFrame->CameraIntrinsics] is; and in general that member of
    the video frame has no influence on what the handler does: replacing it
    changes neither the outcome, nor the heap, nor the log. *)
Theorem FrameArrived_CameraIntrinsics_absent build os sender w sensorFrame v w' frame :
  produces build os sender w sensorFrame v w' ->
  TryAcquireLatestFrame sender = Some frame ->
  Properties frame !! MFSampleExtension_SensorStreaming_CameraIntrinsics build = None ->
  CameraIntrinsics_of v = None
  /\ forall ci,
       FrameArrived build os (with_CameraIntrinsics ci sender) w
       = FrameArrived build os sender w.
Proof.
  intros H Hframe Hkey. split.
  - destruct (produces_frame _ _ _ _ _ _ _ _ H Hframe)
      as (videoMediaFrame & bitmap & Duration & m & _ & _ & _ & _ & _ & ->).
    rewrite CameraIntrinsics_of_complete_frame. unfold held_intrinsics.
    now rewrite Hkey.
  - intros ci. rewrite !FrameArrived_run. apply with_CameraIntrinsics_run.
Qed.

Lemma FrameArrived_CameraIntrinsics_absent_witness :
  produces ex_build ex_os ex_bare_sender ex_world 0 ex_bare_sensorFrame ex_bare_after
  /\ (exists videoMediaFrame,
        VideoMediaFrame ex_bare_frame = Some videoMediaFrame
        /\ CameraIntrinsics_ videoMediaFrame = Some 11)
  /\ CameraIntrinsics_of ex_bare_sensorFrame = None
  /\ FrameArrived ex_build ex_os (with_CameraIntrinsics None ex_bare_sender) ex_world
     = FrameArrived ex_build ex_os ex_bare_sender ex_world.
Proof.
  assert (produces ex_build ex_os ex_bare_sender ex_world 0 ex_bare_sensorFrame
            ex_bare_after) as H2
    by (split; evaluate).
  split; [exact H2|]. split; [eexists; split; reflexivity|].
  destruct (FrameArrived_CameraIntrinsics_absent
              ex_build ex_os ex_bare_sender ex_world 0 ex_bare_sensorFrame
              ex_bare_after ex_bare_frame H2 eq_refl) as [Hnone Hsame].
  - evaluate.
  - split; [exact Hnone | apply Hsame].
Defined.

(** ** Publication *)

Lemma sends_unlocked_traces held traces rest :
  forallb is_trace traces = true ->
  sends_unlocked held (traces ++ rest) = sends_unlocked held rest.
Proof.
  induction traces as [|e traces IH]; [reflexivity|].
  cbn [forallb app]. intros [He Htraces]%andb_prop.
  destruct e; try discriminate. cbn. auto.
Qed.

Lemma sent_then_stored_traces sink sensorFrame traces rest :
  forallb is_trace traces = true ->
  sent_then_stored sink sensorFrame (traces ++ rest)
  = sent_then_stored sink sensorFrame rest.
Proof.
  induction traces as [|e traces IH]; [reflexivity|].
  cbn [forallb app]. intros [He Htraces]%andb_prop.
  destruct e; try discriminate. cbn. auto.
Qed.

Lemma forallb_verbose build msg : forallb is_trace (verbose build msg) = true.
Proof. unfold verbose. now destruct (DBG_ENABLE_VERBOSE_LOGGING build). Qed.

Lemma forallb_origin_transform_log build os c frame :
  forallb is_trace (origin_transform_log build os c frame) = true.
Proof.
  unfold origin_transform_log.
  destruct (origin_transform_reference os c frame); [apply forallb_verbose | reflexivity].
Qed.

Lemma forallb_view_transform_log build frame m :
  forallb is_trace (view_transform_log build frame m) = true.
Proof.
  unfold view_transform_log.
  destruct (Properties frame !! _); [apply forallb_verbose | reflexivity].
Qed.

(** C8. A successful arrival on a context that has a sink calls
    [Send] with the frame it produced exactly once, from the handler itself,
    after nothing but traces; only then does it take
    [_latestSensorFrameMutex], store the frame in [_latestSensorFrame] and
    release the mutex.  So the call of [Send] is made while the handler
    does not hold the mutex, and the store never comes before it. *)
Theorem FrameArrived_Send_then_store build os sender w sensorFrame v w' sink :
  produces build os sender w sensorFrame v w' ->
  _sensorFrameSink (this w) = Some sink ->
  exists traces,
    let emitted :=
      traces ++ [EvSend sink sensorFrame; EvLock; EvStoreLatest sensorFrame; EvUnlock] in
    log w' = log w ++ emitted
    /\ forallb is_trace traces = true
    /\ sends_unlocked false emitted = true
    /\ sent_then_stored sink sensorFrame emitted = true
    /\ _latestSensorFrame (this w') = Some sensorFrame.
Proof.
  intros H Hsink.
  destruct (produces_inv _ _ _ _ _ _ _ H)
    as (frame & videoMediaFrame & bitmap & Duration & m & _ & _ & _ & _ & _ & ->).
  cbn [log this set_latestSensorFrame _latestSensorFrame].
  unfold send_log. rewrite Hsink.
  exists (arrival_log build (this w) Duration
          ++ origin_transform_log build os (this w) frame
          ++ view_transform_log build frame m).
  assert (forallb is_trace
            (arrival_log build (this w) Duration
             ++ origin_transform_log build os (this w) frame
             ++ view_transform_log build frame m) = true) as Htraces.
  { rewrite !forallb_app. unfold arrival_log.
    now rewrite forallb_verbose, forallb_origin_transform_log,
      forallb_view_transform_log. }
  cbv zeta. split; [now rewrite <- !app_assoc|]. split; [exact Htraces|].
  rewrite sends_unlocked_traces, sent_then_stored_traces by exact Htraces.
  cbn. now rewrite !Nat.eqb_refl.
Qed.

Lemma FrameArrived_Send_then_store_witness :
  produces ex_build ex_os ex_sender ex_world 0 ex_sensorFrame ex_after
  /\ _sensorFrameSink (this ex_world) = Some 5
  /\ exists traces,
       log ex_after
       = log ex_world ++ traces ++ [EvSend 5 0; EvLock; EvStoreLatest 0; EvUnlock]
       /\ forallb is_trace traces = true
       /\ _latestSensorFrame (this ex_after) = Some 0.
Proof.
  assert (produces ex_build ex_os ex_sender ex_world 0 ex_sensorFrame ex_after) as H1
    by (split; evaluate).
  split; [exact H1 | split; [reflexivity|]].
  destruct (FrameArrived_Send_then_store ex_build ex_os ex_sender ex_world 0
              ex_sensorFrame ex_after 5 H1 eq_refl)
    as (traces & Hlog & Htraces & _ & _ & Hlatest).
  exists traces. auto.
Defined.

(** ** The latest frame *)

(** C10. [GetLatestSensorFrame] answers the handle in [_latestSensorFrame]
    and changes neither the context nor the heap (it logs taking and
    releasing the mutex around the one load); called again at once, it
    answers the same handle. *)
Theorem GetLatestSensorFrame_reads_only (w : World) :
  let first := GetLatestSensorFrame w in
  let second := GetLatestSensorFrame (snd first) in
  fst first = Normal (_latestSensorFrame (this w))
  /\ this (snd first) = this w
  /\ heap (snd first) = heap w
  /\ log (snd first)
     = log w ++ [EvLock; EvLoadLatest (_latestSensorFrame (this w)); EvUnlock]
  /\ fst second = fst first
  /\ this (snd second) = this w
  /\ heap (snd second) = heap w.
Proof.
  unfold GetLatestSensorFrame, mbind, M_bind, emit, get_latestSensorFrame.
  cbn. rewrite <- !app_assoc. repeat split; reflexivity.
Qed.

Lemma GetLatestSensorFrame_run (w : World) :
  GetLatestSensorFrame w
  = (Normal (_latestSensorFrame (this w)),
     mk_World (this w) (heap w)
       (log w ++ [EvLock; EvLoadLatest (_latestSensorFrame (this w)); EvUnlock])).
Proof.
  unfold GetLatestSensorFrame, mbind, M_bind, emit, get_latestSensorFrame.
  cbn. now rewrite <- !app_assoc.
Qed.

(** One arrival keeps every frame object that was in the heap, and either
    produces a frame and makes it the latest, or leaves the latest frame as
    it was. *)
Lemma FrameArrived_step build os sender w outcome w1 :
  FrameArrived build os sender w = (outcome, w1) ->
  (forall i x, heap w !! i = Some x -> heap w1 !! i = Some x)
  /\ match produced_by w (outcome, w1) with
     | Some (r, v) =>
         _latestSensorFrame (this w1) = Some r /\ heap w1 !! r = Some v
     | None => _latestSensorFrame (this w1) = _latestSensorFrame (this w)
     end.
Proof.
  rewrite FrameArrived_run. unfold FrameArrived_closed, produced_by.
  assert (forall v i x, heap w !! i = Some x -> (heap w ++ [v]) !! i = Some x) as Hkeep
    by (intros v i x Hi; now apply lookup_app_l_Some).
  destruct (validate build os (this w) sender)
    as [events| |frame videoMediaFrame bitmap Duration].
  - intros [= <- <-]. cbn [heap this]. split; [auto|]. now rewrite lookup_fresh.
  - intros [= <- <-]. split; [auto | reflexivity].
  - destruct (origin_cast_ok frame).
    + destruct (view_transform frame) as [m|e|]; intros [= <- <-];
        cbn [heap this]; (split; [auto|]); try reflexivity.
      rewrite lookup_snoc. split; [reflexivity | apply lookup_snoc].
    + intros [= <- <-]. cbn [heap this]. split; [auto | reflexivity].
Qed.

Lemma deliver_latest build arrivals : forall w frames w',
  deliver build arrivals w = Some (frames, w') ->
  (forall i x, heap w !! i = Some x -> heap w' !! i = Some x)
  /\ match last frames with
     | Some (r, v) =>
         _latestSensorFrame (this w') = Some r /\ heap w' !! r = Some v
     | None => _latestSensorFrame (this w') = _latestSensorFrame (this w)
     end.
Proof.
  induction arrivals as [|[os sender] rest IH]; intros w frames w' H; cbn in H.
  - injection H as <- <-. split; [auto | reflexivity].
  - destruct (FrameArrived build os sender w) as [outcome w1] eqn:Hrun.
    assert (exists frames',
              deliver build rest w1 = Some (frames', w')
              /\ frames = match produced_by w (outcome, w1) with
                          | Some f => f :: frames'
                          | None => frames'
                          end) as (frames' & Hrest & ->).
    { destruct outcome; try discriminate;
        (destruct (deliver build rest w1) as [[frames' w2]|]; [|discriminate]);
        injection H as <- <-; eauto. }
    destruct (FrameArrived_step _ _ _ _ _ _ Hrun) as [Hkeep1 Hlatest1].
    destruct (IH _ _ _ Hrest) as [Hkeep Hlatest].
    split; [auto|].
    destruct (produced_by w (outcome, w1)) as [[r v]|].
    + destruct frames' as [|f frames'].
      * cbn in *. destruct Hlatest1 as [Hr Hv]. split; [congruence | auto].
      * rewrite last_cons_cons.
        destruct (last (f :: frames')) as [[r' v']|] eqn:Hlast; [exact Hlatest|].
        now apply last_None in Hlast.
    + destruct (last frames') as [[r v]|]; [exact Hlatest | congruence].
Qed.

(** C7. Take a context as the constructor leaves it and let any number of
    arrivals be handled on it, of which [N] are successful and produce the
    frames [frames] in this order.  Then [GetLatestSensorFrame] answers
    null if [N = 0] (in particular before any arrival), and otherwise the
    handle of the last of these frames, behind which the heap still holds
    the frame object exactly as that arrival produced it. *)
Theorem GetLatestSensorFrame_after_arrivals
    build sensorType spatialPerception sensorFrameSink h l arrivals frames w' :
  deliver build arrivals
    (mk_World (MediaFrameReaderContext_new sensorType spatialPerception sensorFrameSink)
       h l)
  = Some (frames, w') ->
  fst (GetLatestSensorFrame w') = Normal (fst <$> last frames)
  /\ (forall sensorFrame v,
        last frames = Some (sensorFrame, v) ->
        heap (snd (GetLatestSensorFrame w')) !! sensorFrame = Some v)
  /\ (frames = [] -> fst (GetLatestSensorFrame w') = Normal None).
Proof.
  intros H. apply deliver_latest in H as [_ Hlatest].
  rewrite GetLatestSensorFrame_run. cbn [fst snd heap].
  split; [|split].
  - destruct (last frames) as [[r v]|]; cbn.
    + destruct Hlatest as [-> _]. reflexivity.
    + rewrite Hlatest. reflexivity.
  - intros r v Hlast. rewrite Hlast in Hlatest. apply Hlatest.
  - intros ->. cbn in Hlatest. rewrite Hlatest. reflexivity.
Qed.

Lemma GetLatestSensorFrame_after_arrivals_witness :
  deliver ex_build ex_arrivals ex_world
  = Some ([(0, ex_bare_sensorFrame); (1, ex_sensorFrame)], ex_final)
  /\ fst (GetLatestSensorFrame ex_final) = Normal (Some 1)
  /\ heap (snd (GetLatestSensorFrame ex_final)) !! 1 = Some ex_sensorFrame.
Proof.
  assert (deliver ex_build ex_arrivals ex_world
          = Some ([(0, ex_bare_sensorFrame); (1, ex_sensorFrame)], ex_final)) as H
    by evaluate.
  split; [exact H|].
  destruct (GetLatestSensorFrame_after_arrivals
              ex_build VisibleLightLeftFront (mk_SpatialPerception 0) (Some 5) [] []
              ex_arrivals _ ex_final H) as (Hget & Hheap & _).
  split; [exact Hget | apply Hheap; reflexivity].
Defined.

(** ** Exceptions *)

Lemma origin_cast_ok_false frame :
  origin_cast_ok frame = false
  <-> exists o,
        Properties frame !! c_MFSampleExtension_Spatial_CameraCoordinateSystem = Some o
        /\ is_SpatialCoordinateSystem o = false.
Proof.
  unfold origin_cast_ok.
  destruct (Properties frame !! c_MFSampleExtension_Spatial_CameraCoordinateSystem)
    as [o|]; split.
  - eauto.
  - now intros (o' & [= <-] & Ho).
  - discriminate.
  - now intros (o' & Hnone & _).
Qed.

Lemma origin_cast_ok_true frame :
  origin_cast_ok frame = true
  <-> forall o,
        Properties frame !! c_MFSampleExtension_Spatial_CameraCoordinateSystem = Some o ->
        is_SpatialCoordinateSystem o = true.
Proof.
  unfold origin_cast_ok.
  destruct (Properties frame !! c_MFSampleExtension_Spatial_CameraCoordinateSystem)
    as [o|]; split; try discriminate; auto.
  now intros Ho o' [= <-].
Qed.

Lemma view_transform_Raised frame e :
  view_transform frame = Raised e
  <-> (Properties frame !! c_MFSampleExtension_Spatial_CameraViewTransform = Some ObjNull
       /\ e = NullReferenceException)
      \/ (exists o,
            Properties frame !! c_MFSampleExtension_Spatial_CameraViewTransform = Some o
            /\ is_IBoxArray_byte o = false
            /\ e = InvalidCastException).
Proof.
  unfold view_transform.
  destruct (Properties frame !! c_MFSampleExtension_Spatial_CameraViewTransform)
    as [o|]; split.
  - destruct o as [| cs | bytes | ci | k]; try injection 1 as <-; eauto 6.
    destruct (reinterpret_float4x4 bytes); discriminate.
  - intros [[[= ->] ->] | (o' & [= <-] & Ho & ->)]; [reflexivity|].
    destruct o; try discriminate; reflexivity.
  - discriminate.
  - intros [[? _] | (o' & ? & _)]; discriminate.
Qed.

(** C1 fails as the specification states it: with a byte array stored
    under the key of the camera coordinate system, [safe_cast] raises and
    nothing catches the exception.  Nor is anything there to catch the
    exception of reading the relative time of a frame that has none. *)
Lemma FrameArrived_InvalidCastException_escapes :
  Properties ex_mismatched_frame !! c_MFSampleExtension_Spatial_CameraCoordinateSystem
  = Some (ObjByteArray ex_view_bytes)
  /\ fst (FrameArrived ex_build ex_os ex_mismatched_sender ex_world)
     = Raised InvalidCastException
  /\ SystemRelativeTime ex_untimed_frame = None
  /\ FrameArrived ex_build ex_os ex_untimed_sender ex_world
     = (Raised NullReferenceException, ex_world).
Proof. split; [|split; [|split]]; evaluate. Qed.

Lemma validate_Untimed build os c sender :
  validate build os c sender = Untimed
  <-> exists frame videoMediaFrame bitmap,
        TryAcquireLatestFrame sender = Some frame
        /\ VideoMediaFrame frame = Some videoMediaFrame
        /\ SoftwareBitmap_ videoMediaFrame = Some bitmap
        /\ SystemRelativeTime frame = None.
Proof.
  unfold validate. split.
  - destruct (TryAcquireLatestFrame sender) as [f|]; [|discriminate].
    destruct (VideoMediaFrame f) as [vmf|] eqn:Hv; [|discriminate].
    destruct (SoftwareBitmap_ vmf) as [b|] eqn:Hb; [|discriminate].
    destruct (SystemRelativeTime f) as [d|] eqn:Hd; [|eauto 8].
    destruct (FromHistoricalTargetTime os (timestamp_of build d)); discriminate.
  - now intros (frame & videoMediaFrame & bitmap & -> & -> & -> & ->).
Qed.

(** C1, as the code has it.  Of the failures inside the handler, that of
    [FromHistoricalTargetTime] is caught: the handler then returns
    normally.  Looking up a property cannot fail, as [HasKey] guards each
    [Lookup], and a transform that cannot be resolved is no failure.  The
    relative time of the frame is read, and the property values are cast,
    outside the [try] and without a guard.  An exception leaves the
    handler exactly when the frame passed the three checks and
    - the frame has no relative time: [NullReferenceException]; or
    - the time stamp was resolved and a property of the frame is not what
      the handler casts it to: [InvalidCastException] when the object under
      the key of the camera coordinate system is neither null nor a
      coordinate system, or else when the object under the key of the
      camera view transform is neither null nor a byte array, and
      [NullReferenceException] when that object is null.
    When an exception leaves, the context with its latest frame is as
    before and the log has grown by traces only: nothing was sent to the
    sink. *)
Theorem FrameArrived_exceptions build os sender w :
  (forall e,
     fst (FrameArrived build os sender w) = Raised e
     <-> exists frame videoMediaFrame bitmap,
           TryAcquireLatestFrame sender = Some frame
           /\ VideoMediaFrame frame = Some videoMediaFrame
           /\ SoftwareBitmap_ videoMediaFrame = Some bitmap
           /\ ((SystemRelativeTime frame = None /\ e = NullReferenceException)
               \/ exists Duration perceptionTimestamp,
                    SystemRelativeTime frame = Some Duration
                    /\ FromHistoricalTargetTime os
                         (RelativeTicksToAbsoluteTicks build Duration)
                       = inl perceptionTimestamp
                    /\ ((exists o,
                           Properties frame
                             !! c_MFSampleExtension_Spatial_CameraCoordinateSystem
                           = Some o
                           /\ is_SpatialCoordinateSystem o = false
                           /\ e = InvalidCastException)
                        \/ ((forall o,
                               Properties frame
                                 !! c_MFSampleExtension_Spatial_CameraCoordinateSystem
                               = Some o ->
                               is_SpatialCoordinateSystem o = true)
                            /\ ((Properties frame
                                   !! c_MFSampleExtension_Spatial_CameraViewTransform
                                 = Some ObjNull
                                 /\ e = NullReferenceException)
                                \/ (exists o,
                                      Properties frame
                                        !! c_MFSampleExtension_Spatial_CameraViewTransform
                                      = Some o
                                      /\ is_IBoxArray_byte o = false
                                      /\ e = InvalidCastException))))))
  /\ (forall e w',
        FrameArrived build os sender w = (Raised e, w') ->
        this w' = this w
        /\ exists traces,
             log w' = log w ++ traces /\ forallb is_trace traces = true)
  /\ (forall frame videoMediaFrame bitmap Duration exception,
        TryAcquireLatestFrame sender = Some frame ->
        VideoMediaFrame frame = Some videoMediaFrame ->
        SoftwareBitmap_ videoMediaFrame = Some bitmap ->
        SystemRelativeTime frame = Some Duration ->
        FromHistoricalTargetTime os (RelativeTicksToAbsoluteTicks build Duration)
        = inr exception ->
        fst (FrameArrived build os sender w) = Normal tt).
Proof.
  rewrite FrameArrived_run. unfold FrameArrived_closed. split; [|split].
  - intros e. split.
    + destruct (validate build os (this w) sender)
        as [events| |frame videoMediaFrame bitmap Duration] eqn:Hvalid;
        [discriminate| |].
      * apply validate_Untimed in Hvalid
          as (frame & videoMediaFrame & bitmap & Hframe & Hvideo & Hbitmap & Htime).
        intros [= <-]. exists frame, videoMediaFrame, bitmap. auto 6.
      * apply validate_Valid in Hvalid
          as (Hframe & Hvideo & Hbitmap & Htime & t & Hpose).
        intros Hrun. exists frame, videoMediaFrame, bitmap.
        do 3 (split; [assumption|]). right. exists Duration, t.
        do 2 (split; [assumption|]).
        destruct (origin_cast_ok frame) eqn:Horigin.
        -- right. split; [now apply origin_cast_ok_true|].
           apply view_transform_Raised.
           destruct (view_transform frame); try discriminate.
           now injection Hrun as ->.
        -- left. apply origin_cast_ok_false in Horigin as (o & Ho & Hclass).
           injection Hrun as <-. eauto.
    + intros (frame & videoMediaFrame & bitmap & Hframe & Hvideo & Hbitmap
              & [[Htime ->] | (Duration & t & Htime & Hpose & Hcast)]).
      * assert (validate build os (this w) sender = Untimed) as ->
          by (apply validate_Untimed; eauto 8).
        reflexivity.
      * rewrite (validate_Valid_intro _ _ _ _ _ _ _ _ _
                   Hframe Hvideo Hbitmap Htime Hpose).
        destruct Hcast as [(o & Ho & Hclass & ->) | [Horigin Hview]].
        -- assert (origin_cast_ok frame = false) as ->
             by (apply origin_cast_ok_false; eauto).
           reflexivity.
        -- apply origin_cast_ok_true in Horigin. rewrite Horigin.
           apply view_transform_Raised in Hview. now rewrite Hview.
  - intros e w'.
    destruct (validate build os (this w) sender)
      as [events| |frame videoMediaFrame bitmap Duration]; [discriminate| |].
    + intros [= _ <-]. split; [reflexivity|].
      exists []. now rewrite app_nil_r.
    + destruct (origin_cast_ok frame).
      * destruct (view_transform frame); try discriminate.
        intros [= _ <-]. cbn [this log]. split; [reflexivity|].
        eexists. split; [reflexivity|].
        rewrite forallb_app. unfold arrival_log.
        now rewrite forallb_verbose, forallb_origin_transform_log.
      * intros [= _ <-]. cbn [this log]. split; [reflexivity|].
        eexists. split; [reflexivity|]. apply forallb_verbose.
  - intros frame videoMediaFrame bitmap Duration exception
      Hframe Hvideo Hbitmap Htime Hpose.
    unfold validate, timestamp_of. now rewrite Hframe, Hvideo, Hbitmap, Htime, Hpose.
Qed.

(** ** Beyond the specification: what an arrival does, whatever its outcome *)

Lemma validate_Skipped build os c sender events :
  validate build os c sender = Skipped events -> forallb is_trace events = true.
Proof.
  unfold validate.
  destruct (TryAcquireLatestFrame sender) as [frame|]; [|now intros [= <-]].
  destruct (VideoMediaFrame frame) as [videoMediaFrame|]; [|now intros [= <-]].
  destruct (SoftwareBitmap_ videoMediaFrame) as [bitmap|]; [|now intros [= <-]].
  destruct (SystemRelativeTime frame) as [Duration|]; [|discriminate].
  destruct (FromHistoricalTargetTime os (timestamp_of build Duration)); [discriminate|].
  intros [= <-]. rewrite forallb_app. unfold arrival_log, failure_log.
  rewrite forallb_verbose. now destruct (DBG_ENABLE_ERROR_LOGGING build).
Qed.

(** The two shapes of an arrival: it publishes nothing (it is skipped, or
    it stops at an exception or at an undefined read, leaving at most an
    orphan frame object behind), or it publishes the frame it allocated. *)
Lemma FrameArrived_effect build os sender w outcome w1 :
  FrameArrived build os sender w = (outcome, w1) ->
  (exists traces,
     forallb is_trace traces = true
     /\ this w1 = this w
     /\ log w1 = log w ++ traces
     /\ produced_by w (outcome, w1) = None
     /\ (heap w1 = heap w \/ exists x, heap w1 = heap w ++ [x]))
  \/ (exists traces v,
        forallb is_trace traces = true
        /\ outcome = Normal tt
        /\ produced_by w (outcome, w1) = Some (length (heap w), v)
        /\ this w1 = set_latestSensorFrame (Some (length (heap w))) (this w)
        /\ heap w1 = heap w ++ [v]
        /\ log w1 = log w ++ traces ++ send_log (this w) (length (heap w))
                      ++ [EvLock; EvStoreLatest (length (heap w)); EvUnlock]).
Proof.
  rewrite FrameArrived_run. unfold FrameArrived_closed, produced_by.
  destruct (validate build os (this w) sender)
    as [events| |frame videoMediaFrame bitmap Duration] eqn:Hvalid.
  - intros [= <- <-]. left. exists events. cbn [this heap log].
    rewrite lookup_fresh. apply validate_Skipped in Hvalid. auto 6.
  - intros [= <- <-]. left. exists []. rewrite app_nil_r. auto 6.
  - assert (forallb is_trace
              (arrival_log build (this w) Duration
               ++ origin_transform_log build os (this w) frame) = true) as Htraces.
    { rewrite forallb_app. unfold arrival_log.
      now rewrite forallb_verbose, forallb_origin_transform_log. }
    destruct (origin_cast_ok frame).
    + destruct (view_transform frame) as [m|e|]; intros [= <- <-]; cbn [this heap log].
      * right.
        exists (arrival_log build (this w) Duration
                ++ origin_transform_log build os (this w) frame
                ++ view_transform_log build frame m), (complete_frame build os (this w) frame bitmap Duration m).
        rewrite lookup_snoc, <- !app_assoc.
        repeat (split; [try reflexivity|]); [|reflexivity].
        rewrite !forallb_app. unfold arrival_log.
        now rewrite forallb_verbose, forallb_origin_transform_log,
          forallb_view_transform_log.
      * left. eexists. split; [exact Htraces|]. eauto 8.
      * left. eexists. split; [exact Htraces|]. eauto 8.
    + intros [= <- <-]. cbn [this heap log]. left.
      exists (arrival_log build (this w) Duration). unfold arrival_log.
      rewrite forallb_verbose. eauto 8.
Qed.

Lemma produces_intro build os sender w frame videoMediaFrame bitmap Duration m :
  validate build os (this w) sender = Valid frame videoMediaFrame bitmap Duration ->
  origin_cast_ok frame = true ->
  view_transform frame = Normal m ->
  exists w',
    produces build os sender w (length (heap w))
      (complete_frame build os (this w) frame bitmap Duration m) w'.
Proof.
  intros Hvalid Horigin Hview. unfold produces, produced_by.
  rewrite FrameArrived_run. unfold FrameArrived_closed.
  rewrite Hvalid, Horigin, Hview. eexists. split; [reflexivity|].
  cbn [heap]. now rewrite lookup_snoc.
Qed.

Lemma view_transform_Normal frame :
  (exists m, view_transform frame = Normal m)
  <-> Properties frame !! c_MFSampleExtension_Spatial_CameraViewTransform = None
      \/ exists bytes,
           Properties frame !! c_MFSampleExtension_Spatial_CameraViewTransform
           = Some (ObjByteArray bytes)
           /\ 64 <= length bytes.
Proof.
  unfold view_transform.
  destruct (Properties frame !! c_MFSampleExtension_Spatial_CameraViewTransform)
    as [[| cs | bytes | ci | k]|]; split;
    try (intros [m [=]]; fail);
    try (intros [[=] | (b & [=] & _)]; fail); eauto.
  - intros [m Hm]. right. exists bytes. split; [reflexivity|].
    apply reinterpret_float4x4_defined.
    destruct (reinterpret_float4x4 bytes); [eauto | discriminate].
  - intros [[=] | (b & [= <-] & Hlen)].
    apply reinterpret_float4x4_defined in Hlen as [m ->]. eauto.
Qed.

Lemma origin_cast_ok_cases frame :
  origin_cast_ok frame = true
  <-> Properties frame !! c_MFSampleExtension_Spatial_CameraCoordinateSystem = None
      \/ Properties frame !! c_MFSampleExtension_Spatial_CameraCoordinateSystem
         = Some ObjNull
      \/ exists cs,
           Properties frame !! c_MFSampleExtension_Spatial_CameraCoordinateSystem
           = Some (ObjSpatialCoordinateSystem cs).
Proof.
  unfold origin_cast_ok.
  destruct (Properties frame !! c_MFSampleExtension_Spatial_CameraCoordinateSystem)
    as [[| cs | bytes | ci | k]|]; cbn; split; eauto;
    try discriminate; intros [[=] | [[=] | [cs' [=]]]].
Qed.

(** X1. When an arrival is successful.  It is whenever the reader hands
    out a frame with a video frame, a bitmap and a relative time, the time
    stamp is resolved, the property set holds nothing, null or a coordinate
    system under the key of the camera coordinate system, and nothing or a
    byte array that has the 64 bytes the handler reads under the key of
    the camera view transform; what is stored under the key of the
    intrinsics plays no part.  And it is in no other case: a successful
    arrival had a frame, a video frame, a bitmap and a relative time, its
    time stamp was resolved, and the two properties were of these kinds. *)
Theorem FrameArrived_succeeds build os sender w :
  (forall frame videoMediaFrame bitmap Duration perceptionTimestamp,
     TryAcquireLatestFrame sender = Some frame ->
     VideoMediaFrame frame = Some videoMediaFrame ->
     SoftwareBitmap_ videoMediaFrame = Some bitmap ->
     SystemRelativeTime frame = Some Duration ->
     FromHistoricalTargetTime os (RelativeTicksToAbsoluteTicks build Duration)
     = inl perceptionTimestamp ->
     (Properties frame !! c_MFSampleExtension_Spatial_CameraCoordinateSystem = None
      \/ Properties frame !! c_MFSampleExtension_Spatial_CameraCoordinateSystem
         = Some ObjNull
      \/ exists cs,
           Properties frame !! c_MFSampleExtension_Spatial_CameraCoordinateSystem
           = Some (ObjSpatialCoordinateSystem cs)) ->
     (Properties frame !! c_MFSampleExtension_Spatial_CameraViewTransform = None
      \/ exists bytes,
           Properties frame !! c_MFSampleExtension_Spatial_CameraViewTransform
           = Some (ObjByteArray bytes)
           /\ 64 <= length bytes) ->
     exists sensorFrame v w', produces build os sender w sensorFrame v w')
  /\ (forall sensorFrame v w',
        produces build os sender w sensorFrame v w' ->
        exists frame videoMediaFrame bitmap Duration perceptionTimestamp,
          TryAcquireLatestFrame sender = Some frame
          /\ VideoMediaFrame frame = Some videoMediaFrame
          /\ SoftwareBitmap_ videoMediaFrame = Some bitmap
          /\ SystemRelativeTime frame = Some Duration
          /\ FromHistoricalTargetTime os (RelativeTicksToAbsoluteTicks build Duration)
             = inl perceptionTimestamp
          /\ (Properties frame !! c_MFSampleExtension_Spatial_CameraCoordinateSystem
              = None
              \/ Properties frame !! c_MFSampleExtension_Spatial_CameraCoordinateSystem
                 = Some ObjNull
              \/ exists cs,
                   Properties frame !! c_MFSampleExtension_Spatial_CameraCoordinateSystem
                   = Some (ObjSpatialCoordinateSystem cs))
          /\ (Properties frame !! c_MFSampleExtension_Spatial_CameraViewTransform = None
              \/ exists bytes,
                   Properties frame !! c_MFSampleExtension_Spatial_CameraViewTransform
                   = Some (ObjByteArray bytes))).
Proof.
  split.
  - intros frame videoMediaFrame bitmap Duration t Hframe Hvideo Hbitmap Htime Hpose
      Horigin Hview.
    apply origin_cast_ok_cases in Horigin.
    apply view_transform_Normal in Hview as [m Hview].
    destruct (produces_intro build os sender w frame videoMediaFrame bitmap Duration m)
      as [w' H]; eauto using validate_Valid_intro.
  - intros sensorFrame v w' H.
    destruct (produces_inv _ _ _ _ _ _ _ H)
      as (frame & videoMediaFrame & bitmap & Duration & m & Hvalid & Horigin & Hview & _).
    apply validate_Valid in Hvalid as (Hframe & Hvideo & Hbitmap & Htime & t & Hpose).
    exists frame, videoMediaFrame, bitmap, Duration, t.
    do 5 (split; [assumption|]). split.
    + now apply origin_cast_ok_cases.
    + assert (exists m', view_transform frame = Normal m') as Hm by eauto.
      apply view_transform_Normal in Hm as [Hnone | (bytes & Hbytes & _)]; eauto.
Qed.

(** X2. The frame a successful arrival produces carries the sensor type
    of the context, the relative time of the frame converted by the time
    converter of the context, and a bitmap with the size and the pixels of
    the bitmap of the frame; its handle is new (no frame object had it
    before), and it is the latest frame when the handler returns. *)
Theorem FrameArrived_frame_fields
    build os sender w sensorFrame v w' frame videoMediaFrame bitmap :
  produces build os sender w sensorFrame v w' ->
  TryAcquireLatestFrame sender = Some frame ->
  VideoMediaFrame frame = Some videoMediaFrame ->
  SoftwareBitmap_ videoMediaFrame = Some bitmap ->
  FrameType v = _sensorType (this w)
  /\ (exists Duration,
        SystemRelativeTime frame = Some Duration
        /\ Timestamp v = RelativeTicksToAbsoluteTicks build Duration)
  /\ PixelWidth (SoftwareBitmap_of v) = PixelWidth bitmap
  /\ PixelHeight (SoftwareBitmap_of v) = PixelHeight bitmap
  /\ pixels (SoftwareBitmap_of v) = pixels bitmap
  /\ heap w !! sensorFrame = None
  /\ heap w' !! sensorFrame = Some v
  /\ _latestSensorFrame (this w') = Some sensorFrame.
Proof.
  intros H Hframe Hvideo Hbitmap.
  destruct (produces_inv _ _ _ _ _ _ _ H)
    as (frame' & videoMediaFrame' & bitmap' & Duration & m & Hvalid & _ & _ & -> & -> & ->).
  apply validate_Valid in Hvalid as (Hframe' & Hvideo' & Hbitmap' & Htime & _).
  rewrite Hframe in Hframe'. injection Hframe' as <-.
  rewrite Hvideo in Hvideo'. injection Hvideo' as <-.
  rewrite Hbitmap in Hbitmap'. injection Hbitmap' as <-.
  cbn [heap this]. rewrite lookup_fresh, lookup_snoc.
  split; [reflexivity|]. split; [eauto|].
  repeat split; reflexivity.
Qed.

Lemma FrameArrived_frame_fields_witness :
  produces ex_build ex_os ex_sender ex_world 0 ex_sensorFrame ex_after
  /\ Timestamp ex_sensorFrame = (1000 + 131000000000000000)%Z
  /\ pixels (SoftwareBitmap_of ex_sensorFrame) = pixels ex_bitmap
  /\ _latestSensorFrame (this ex_after) = Some 0.
Proof.
  assert (produces ex_build ex_os ex_sender ex_world 0 ex_sensorFrame ex_after) as H1
    by (split; evaluate).
  split; [exact H1|].
  destruct (FrameArrived_frame_fields ex_build ex_os ex_sender ex_world 0
              ex_sensorFrame ex_after ex_frame
              (mk_VideoMediaFrame (Some ex_bitmap) (Some 11)) ex_bitmap
              H1 eq_refl eq_refl eq_refl)
    as (_ & (Duration & HDuration & Htime) & _ & _ & Hpixels & _ & _ & Hlatest).
  cbn in HDuration. injection HDuration as <-.
  split; [exact Htime | split; [exact Hpixels | exact Hlatest]].
Defined.

Lemma sent_traces traces : forallb is_trace traces = true -> sent traces = [].
Proof.
  induction traces as [|e traces IH]; [reflexivity|].
  cbn [forallb]. intros [He Htraces]%andb_prop.
  destruct e; try discriminate. cbn. auto.
Qed.

Lemma stored_traces traces : forallb is_trace traces = true -> stored traces = [].
Proof.
  induction traces as [|e traces IH]; [reflexivity|].
  cbn [forallb]. intros [He Htraces]%andb_prop.
  destruct e; try discriminate. cbn. auto.
Qed.

Lemma non_traces_traces traces :
  forallb is_trace traces = true -> non_traces traces = [].
Proof.
  induction traces as [|e traces IH]; [reflexivity|].
  cbn [forallb]. intros [He Htraces]%andb_prop.
  unfold non_traces. cbn. rewrite He. cbn. auto.
Qed.

Lemma lock_discipline_traces traces rest :
  forallb is_trace traces = true ->
  lock_discipline Free (traces ++ rest) = lock_discipline Free rest.
Proof.
  induction traces as [|e traces IH]; [reflexivity|].
  cbn [forallb app]. intros [He Htraces]%andb_prop.
  destruct e; try discriminate. cbn. auto.
Qed.

Lemma sent_app l1 l2 : sent (l1 ++ l2) = sent l1 ++ sent l2.
Proof. apply omap_app. Qed.

Lemma stored_app l1 l2 : stored (l1 ++ l2) = stored l1 ++ stored l2.
Proof. apply omap_app. Qed.

(** One arrival, seen from the heap and from the sink. *)
Lemma FrameArrived_step_sink build os sender w outcome w1 :
  FrameArrived build os sender w = (outcome, w1) ->
  length (heap w) <= length (heap w1)
  /\ (forall i x, heap w !! i = Some x -> heap w1 !! i = Some x)
  /\ _sensorFrameSink (this w1) = _sensorFrameSink (this w)
  /\ match produced_by w (outcome, w1) with
     | Some (r, v) =>
         r = length (heap w)
         /\ heap w1 !! r = Some v
         /\ sent (log w1)
            = sent (log w)
              ++ match _sensorFrameSink (this w) with
                 | Some sink => [(sink, r)]
                 | None => []
                 end
         /\ stored (log w1) = stored (log w) ++ [r]
     | None => sent (log w1) = sent (log w) /\ stored (log w1) = stored (log w)
     end.
Proof.
  intros Hrun.
  destruct (FrameArrived_effect _ _ _ _ _ _ Hrun)
    as [(traces & Htraces & Hthis & Hlog & -> & Hheap)
       | (traces & v & Htraces & -> & -> & Hthis & Hheap & Hlog)].
  - rewrite Hthis, Hlog, sent_app, stored_app.
    rewrite (sent_traces traces), (stored_traces traces), !app_nil_r by assumption.
    destruct Hheap as [-> | [x ->]]; [auto 6|].
    rewrite length_app. cbn [length].
    repeat split; try reflexivity; try lia.
    intros i y Hi. now apply lookup_app_l_Some.
  - rewrite Hthis, Hlog, Hheap, length_app. cbn [length set_latestSensorFrame _sensorFrameSink].
    split; [lia|]. split; [intros i y Hi; now apply lookup_app_l_Some|].
    split; [reflexivity|]. split; [reflexivity|]. split; [apply lookup_snoc|].
    rewrite !sent_app, !stored_app.
    rewrite (sent_traces traces), (stored_traces traces) by assumption.
    unfold send_log. destruct (_sensorFrameSink (this w)); split; reflexivity.
Qed.

(** A run of arrivals, seen from the heap and from the sink. *)
Lemma deliver_frames build arrivals : forall w frames w',
  deliver build arrivals w = Some (frames, w') ->
  length (heap w) <= length (heap w')
  /\ (forall i x, heap w !! i = Some x -> heap w' !! i = Some x)
  /\ (forall r v, (r, v) ∈ frames -> heap w' !! r = Some v)
  /\ sent (log w')
     = sent (log w)
       ++ match _sensorFrameSink (this w) with
          | Some sink => (fun f => (sink, f.1)) <$> frames
          | None => []
          end
  /\ stored (log w') = stored (log w) ++ frames.*1.
Proof.
  induction arrivals as [|[os sender] rest IH]; intros w frames w' H; cbn in H.
  - injection H as <- <-.
    split; [lia|]. split; [auto|].
    split; [intros r v Hin; now apply elem_of_nil in Hin|].
    split; [destruct (_sensorFrameSink (this w))|]; cbn; now rewrite app_nil_r.
  - destruct (FrameArrived build os sender w) as [outcome w1] eqn:Hrun.
    assert (exists frames',
              deliver build rest w1 = Some (frames', w')
              /\ frames = match produced_by w (outcome, w1) with
                          | Some f => f :: frames'
                          | None => frames'
                          end) as (frames' & Hrest & ->).
    { destruct outcome; try discriminate;
        (destruct (deliver build rest w1) as [[frames' w2]|]; [|discriminate]);
        injection H as <- <-; eauto. }
    destruct (FrameArrived_step_sink _ _ _ _ _ _ Hrun)
      as (Hlen1 & Hkeep1 & Hsink1 & Hstep).
    destruct (IH _ _ _ Hrest) as (Hlen & Hkeep & Hframes & Hsent & Hstored).
    rewrite Hsink1 in Hsent.
    split; [lia|]. split; [auto|].
    destruct (produced_by w (outcome, w1)) as [[r v]|].
    + destruct Hstep as (-> & Hv & Hsent1 & Hstored1).
      split; [|split].
      * intros r' v' [[= -> ->] | Hin]%elem_of_cons; [auto|].
        exact (Hframes _ _ Hin).
      * rewrite Hsent, Hsent1, <- app_assoc.
        destruct (_sensorFrameSink (this w)); reflexivity.
      * rewrite Hstored, Hstored1, <- app_assoc. reflexivity.
    + destruct Hstep as [Hsent1 Hstored1].
      split; [exact Hframes | split; congruence].
Qed.

(** X3. Frame objects are never changed once an arrival is over: after any
    run of arrivals, every frame a successful arrival produced is still
    behind its handle exactly as it was produced (the frames the sink was
    given, and not only the latest one), and so is every frame object that
    was in the heap before the run. *)
Theorem deliver_frames_unchanged build arrivals w frames w' :
  deliver build arrivals w = Some (frames, w') ->
  (forall sensorFrame v, (sensorFrame, v) ∈ frames -> heap w' !! sensorFrame = Some v)
  /\ (forall r x, heap w !! r = Some x -> heap w' !! r = Some x).
Proof.
  intros H. destruct (deliver_frames _ _ _ _ _ H) as (_ & Hkeep & Hframes & _).
  split; [exact Hframes | exact Hkeep].
Qed.

Lemma deliver_frames_unchanged_witness :
  deliver ex_build ex_arrivals ex_world
  = Some ([(0, ex_bare_sensorFrame); (1, ex_sensorFrame)], ex_final)
  /\ heap ex_final !! 0 = Some ex_bare_sensorFrame
  /\ heap ex_final !! 1 = Some ex_sensorFrame.
Proof.
  assert (deliver ex_build ex_arrivals ex_world
          = Some ([(0, ex_bare_sensorFrame); (1, ex_sensorFrame)], ex_final)) as H
    by evaluate.
  split; [exact H|].
  destruct (deliver_frames_unchanged _ _ _ _ _ H) as [Hframes _].
  split; apply Hframes.
  - apply list_elem_of_here.
  - apply list_elem_of_further, list_elem_of_here.
Defined.

(** X5. The sink is given every frame that is produced, once, in the order
    of the arrivals, and nothing else: over any run of arrivals the calls
    of [Send] are those of the log before, followed by one call per
    successful arrival with its frame; without a sink there is no call.
    The stores into [_latestSensorFrame] are the same frames in the same
    order, sink or no sink. *)
Theorem deliver_sent build arrivals w frames w' :
  deliver build arrivals w = Some (frames, w') ->
  sent (log w')
  = sent (log w)
    ++ match _sensorFrameSink (this w) with
       | Some sink => (fun f => (sink, f.1)) <$> frames
       | None => []
       end
  /\ stored (log w') = stored (log w) ++ frames.*1.
Proof.
  intros H. now destruct (deliver_frames _ _ _ _ _ H) as (_ & _ & _ & Hsent & Hstored).
Qed.

Lemma deliver_sent_witness :
  deliver ex_build ex_arrivals ex_world
  = Some ([(0, ex_bare_sensorFrame); (1, ex_sensorFrame)], ex_final)
  /\ sent (log ex_final) = [(5, 0); (5, 1)]
  /\ stored (log ex_final) = [0; 1].
Proof.
  assert (deliver ex_build ex_arrivals ex_world
          = Some ([(0, ex_bare_sensorFrame); (1, ex_sensorFrame)], ex_final)) as H
    by evaluate.
  split; [exact H|].
  apply (deliver_sent _ _ _ _ _ H).
Defined.

(** X6. [_latestSensorFrame] never dangles: if it is null or the handle of
    a frame object before an arrival, it is so after the arrival, whatever
    the outcome (also when an exception leaves the handler), and after
    [GetLatestSensorFrame]; so a handle [GetLatestSensorFrame] answers is
    the handle of a frame object. *)
Theorem latest_handle_valid build os sender w :
  valid_handle w ->
  valid_handle (snd (FrameArrived build os sender w))
  /\ valid_handle (snd (GetLatestSensorFrame w))
  /\ forall sensorFrame,
       fst (GetLatestSensorFrame w) = Normal (Some sensorFrame) ->
       is_Some (heap (snd (GetLatestSensorFrame w)) !! sensorFrame).
Proof.
  intros Hvalid. rewrite GetLatestSensorFrame_run. cbn [fst snd]. split; [|split].
  - destruct (FrameArrived build os sender w) as [outcome w1] eqn:Hrun. cbn [snd].
    destruct (FrameArrived_effect _ _ _ _ _ _ Hrun)
      as [(traces & _ & Hthis & _ & _ & Hheap)
         | (traces & v & _ & _ & _ & Hthis & Hheap & _)];
      intros r; rewrite Hthis.
    + intros Hr. destruct (Hvalid r Hr) as [x Hx].
      destruct Hheap as [-> | [y ->]]; [eauto|].
      exists x. now apply lookup_app_l_Some.
    + cbn [set_latestSensorFrame _latestSensorFrame]. intros [= <-].
      rewrite Hheap, lookup_snoc. eauto.
  - exact Hvalid.
  - intros r [= Hr]. cbn [heap]. auto.
Qed.

Lemma latest_handle_valid_witness :
  valid_handle ex_final
  /\ valid_handle (snd (FrameArrived ex_build ex_os ex_mismatched_sender ex_final))
  /\ is_Some (heap (snd (GetLatestSensorFrame ex_final)) !! 1).
Proof.
  assert (valid_handle ex_final) as Hvalid.
  { intros r [= <-]. eexists. reflexivity. }
  split; [exact Hvalid|].
  destruct (latest_handle_valid ex_build ex_os ex_mismatched_sender ex_final Hvalid)
    as (Harrival & _ & Hget).
  split; [exact Harrival | apply Hget; reflexivity].
Defined.

(** X7. Both methods keep the discipline of [_latestSensorFrameMutex],
    whatever the outcome: what [FrameArrived] and [GetLatestSensorFrame]
    add to the log takes the mutex only to read or write
    [_latestSensorFrame] once, traces and calls [Send] only while the
    mutex is free, and ends with the mutex free, also when an exception
    leaves the handler. *)
Theorem methods_keep_lock_discipline build os sender w :
  (exists emitted,
     log (snd (FrameArrived build os sender w)) = log w ++ emitted
     /\ lock_discipline Free emitted = true)
  /\ (exists emitted,
        log (snd (GetLatestSensorFrame w)) = log w ++ emitted
        /\ lock_discipline Free emitted = true).
Proof.
  split.
  - destruct (FrameArrived build os sender w) as [outcome w1] eqn:Hrun. cbn [snd].
    destruct (FrameArrived_effect _ _ _ _ _ _ Hrun)
      as [(traces & Htraces & _ & Hlog & _)
         | (traces & v & Htraces & _ & _ & _ & _ & Hlog)].
    + exists traces. split; [exact Hlog|].
      rewrite <- (app_nil_r traces). now rewrite lock_discipline_traces.
    + eexists. split; [exact Hlog|].
      rewrite lock_discipline_traces by exact Htraces.
      unfold send_log. now destruct (_sensorFrameSink (this w)).
  - rewrite GetLatestSensorFrame_run. cbn [snd log]. eexists. split; reflexivity.
Qed.

Lemma non_traces_app l1 l2 : non_traces (l1 ++ l2) = non_traces l1 ++ non_traces l2.
Proof. apply List.filter_app. Qed.

Lemma non_traces_arrival_log build c Duration : non_traces (arrival_log build c Duration) = [].
Proof. apply non_traces_traces, forallb_verbose. Qed.

Lemma non_traces_failure_log build exception : non_traces (failure_log build exception) = [].
Proof. unfold failure_log. now destruct (DBG_ENABLE_ERROR_LOGGING build). Qed.

Lemma non_traces_origin_transform_log build os c frame :
  non_traces (origin_transform_log build os c frame) = [].
Proof. apply non_traces_traces, forallb_origin_transform_log. Qed.

Lemma non_traces_view_transform_log build frame m :
  non_traces (view_transform_log build frame m) = [].
Proof. apply non_traces_traces, forallb_view_transform_log. Qed.

(** X8. The two logging switches change nothing but the traces: built
    with other values of [DBG_ENABLE_VERBOSE_LOGGING] and
    [DBG_ENABLE_ERROR_LOGGING], the handler has the same outcome on every
    arrival, leaves the same context and the same heap, and logs the same
    events apart from the traces. *)
Theorem FrameArrived_logging_inert build os sender w verbose_logging error_logging :
  let plain := FrameArrived build os sender w in
  let other :=
    FrameArrived (with_logging verbose_logging error_logging build) os sender w in
  fst other = fst plain
  /\ this (snd other) = this (snd plain)
  /\ heap (snd other) = heap (snd plain)
  /\ non_traces (log (snd other)) = non_traces (log (snd plain)).
Proof.
  cbv zeta. rewrite !FrameArrived_run. unfold FrameArrived_closed, validate.
  destruct (TryAcquireLatestFrame sender) as [frame|]; [|now cbn].
  destruct (VideoMediaFrame frame) as [videoMediaFrame|]; [|now cbn].
  destruct (SoftwareBitmap_ videoMediaFrame) as [bitmap|]; [|now cbn].
  destruct (SystemRelativeTime frame) as [Duration|]; [|now cbn].
  change (timestamp_of (with_logging verbose_logging error_logging build) Duration)
    with (timestamp_of build Duration).
  destruct (FromHistoricalTargetTime os (timestamp_of build Duration)) as [t|exception].
  - destruct (origin_cast_ok frame).
    + destruct (view_transform frame) as [m|e|]; cbn [fst snd this heap log];
        (split; [reflexivity|]); (split; [reflexivity|]); (split; [reflexivity|]);
        rewrite !non_traces_app, !non_traces_arrival_log,
          !non_traces_origin_transform_log, ?non_traces_view_transform_log;
        reflexivity.
    + cbn [fst snd this heap log]. repeat (split; [reflexivity|]).
      now rewrite !non_traces_app, !non_traces_arrival_log.
  - cbn [fst snd this heap log]. repeat (split; [reflexivity|]).
    now rewrite !non_traces_app, !non_traces_arrival_log, !non_traces_failure_log.
Qed.

(** ** Beyond the specification: the bytes of a matrix *)

Lemma float_of_bytes_is_float (b0 b1 b2 b3 : Byte.byte) :
  is_float (float_of_bytes b0 b1 b2 b3).
Proof.
  pose proof (byte_range b0). pose proof (byte_range b1).
  pose proof (byte_range b2). pose proof (byte_range b3).
  unfold is_float, float_of_bytes. lia.
Qed.

Lemma byte_of_float_value (k : Z) (w : float) :
  Z.of_N (Byte.to_N (byte_of_float k w)) = ((w / 2 ^ (8 * k)) mod 256)%Z.
Proof.
  unfold byte_of_float.
  assert (0 <= (w / 2 ^ (8 * k)) mod 256 < 256)%Z as Hd by (apply Z.mod_pos_bound; lia).
  destruct (Byte.of_N (Z.to_N ((w / 2 ^ (8 * k)) mod 256))) as [b|] eqn:Hb.
  - apply Byte.to_of_N in Hb. rewrite Hb. lia.
  - apply Byte.of_N_None_iff in Hb. lia.
Qed.

Lemma float_of_bytes_of_float (w : float) :
  is_float w ->
  float_of_bytes (byte_of_float 0 w) (byte_of_float 1 w)
    (byte_of_float 2 w) (byte_of_float 3 w) = w.
Proof.
  unfold is_float, float_of_bytes. intros Hw. rewrite !byte_of_float_value.
  change (2 ^ (8 * 0))%Z with 1%Z. change (2 ^ (8 * 1))%Z with 256%Z.
  change (2 ^ (8 * 2))%Z with (256 * 256)%Z.
  change (2 ^ (8 * 3))%Z with (256 * 256 * 256)%Z.
  change (2 ^ 8)%Z with 256%Z. change (2 ^ 16)%Z with 65536%Z.
  change (2 ^ 24)%Z with 16777216%Z. change (2 ^ 32)%Z with 4294967296%Z in Hw.
  rewrite Z.div_1_r, <- !Z.div_div by lia.
  Z.div_mod_to_equations. lia.
Qed.

Lemma floats_of_bytes_of_floats (ws : list float) (rest : list Byte.byte) :
  Forall is_float ws ->
  floats_of_bytes (length ws) (flat_map bytes_of_float ws ++ rest) = Some ws.
Proof.
  induction 1 as [|w ws Hw _ IH]; [reflexivity|].
  cbn [length flat_map bytes_of_float app floats_of_bytes].
  rewrite IH, float_of_bytes_of_float by assumption. reflexivity.
Qed.

Lemma floats_of_bytes_are_floats (n : nat) : forall (Data : list Byte.byte) ws,
  floats_of_bytes n Data = Some ws -> Forall is_float ws.
Proof.
  induction n as [|n IH]; intros Data ws H; cbn in H.
  - injection H as <-. constructor.
  - destruct Data as [|b0 [|b1 [|b2 [|b3 rest]]]]; try discriminate.
    destruct (floats_of_bytes n rest) as [ws'|] eqn:E; [|discriminate].
    injection H as <-. constructor; [apply float_of_bytes_is_float | eauto].
Qed.

(** X9. Reading a matrix out of bytes and laying a matrix out in bytes are
    inverse to each other, and the read looks at the first 64 bytes only:
    a matrix of 32 bit patterns laid out in memory and followed by anything
    is read back as it was; and whenever the read of [bytes] is defined,
    the matrix read consists of 32 bit patterns, occupies the first 64
    bytes of [bytes], and is read again from those 64 bytes followed by
    anything else. *)
Theorem reinterpret_float4x4_round_trip :
  (forall m rest,
     Forall is_float (floats_of_float4x4 m) ->
     reinterpret_float4x4 (bytes_of_float4x4 m ++ rest) = Some m)
  /\ (forall bytes m,
        reinterpret_float4x4 bytes = Some m ->
        Forall is_float (floats_of_float4x4 m)
        /\ bytes_of_float4x4 m = take 64 bytes
        /\ forall other, reinterpret_float4x4 (take 64 bytes ++ other) = Some m).
Proof.
  assert (forall m rest,
            Forall is_float (floats_of_float4x4 m) ->
            reinterpret_float4x4 (bytes_of_float4x4 m ++ rest) = Some m) as Hwrite.
  { intros m rest Hm. unfold reinterpret_float4x4, bytes_of_float4x4.
    change 16 with (length (floats_of_float4x4 m)).
    rewrite floats_of_bytes_of_floats by assumption. now destruct m. }
  split; [exact Hwrite|].
  intros bytes m Hread.
  assert (Forall is_float (floats_of_float4x4 m)) as Hm.
  { unfold reinterpret_float4x4 in Hread.
    destruct (floats_of_bytes 16 bytes) as [ws|] eqn:E; [|discriminate].
    apply floats_of_bytes_are_floats in E.
    do 17 (destruct ws as [|? ws]; try discriminate).
    now injection Hread as <-. }
  split; [exact Hm|]. split; [now apply reinterpret_float4x4_bytes|].
  intros other. rewrite <- (reinterpret_float4x4_bytes _ _ Hread). now apply Hwrite.
Qed.

(** ** Beyond the specification: the intrinsics are taken as they come *)

Lemma with_property_validate
    build os c sender key o frame videoMediaFrame bitmap Duration :
  validate build os c sender = Valid frame videoMediaFrame bitmap Duration ->
  validate build os c (with_property key o sender)
  = Valid (mk_MediaFrameReference (SystemRelativeTime frame) (VideoMediaFrame frame)
             (<[key := o]> (Properties frame)))
      videoMediaFrame bitmap Duration.
Proof.
  unfold validate, with_property, timestamp_of. cbn [TryAcquireLatestFrame].
  destruct (TryAcquireLatestFrame sender) as [f|]; [|discriminate].
  cbn [VideoMediaFrame SystemRelativeTime].
  destruct (VideoMediaFrame f) as [vmf|] eqn:Hvideo; [|discriminate].
  destruct (SoftwareBitmap_ vmf) as [b|]; [|discriminate].
  destruct (SystemRelativeTime f) as [d|] eqn:Htime; [|discriminate].
  destruct (FromHistoricalTargetTime os _); [|discriminate].
  intros [= <- <- <- <-]. now rewrite Hvideo, Htime.
Qed.

(** X10. The object under the key of the intrinsics is never checked: take
    a successful arrival and store any object whatever (a null, a byte
    array) under that key, the key being neither of the two other keys.
    The arrival is successful all the same, the [CameraIntrinsics] of its
    frame wraps that very object, and the transforms and the bitmap of the
    frame are what they were. *)
Theorem FrameArrived_intrinsics_unchecked build os sender w sensorFrame v w' o :
  produces build os sender w sensorFrame v w' ->
  MFSampleExtension_SensorStreaming_CameraIntrinsics build
  <> c_MFSampleExtension_Spatial_CameraCoordinateSystem ->
  MFSampleExtension_SensorStreaming_CameraIntrinsics build
  <> c_MFSampleExtension_Spatial_CameraViewTransform ->
  exists v1 w1 ci,
    produces build os
      (with_property (MFSampleExtension_SensorStreaming_CameraIntrinsics build) o sender)
      w sensorFrame v1 w1
    /\ CameraIntrinsics_of v1 = Some ci
    /\ sensorStreamingCameraIntrinsics ci = o
    /\ FrameToOrigin v1 = FrameToOrigin v
    /\ CameraViewTransform v1 = CameraViewTransform v
    /\ SoftwareBitmap_of v1 = SoftwareBitmap_of v.
Proof.
  intros H Hne1 Hne2.
  destruct (produces_inv _ _ _ _ _ _ _ H)
    as (frame & videoMediaFrame & bitmap & Duration & m & Hvalid & Horigin & Hview & -> & -> & _).
  set (key := MFSampleExtension_SensorStreaming_CameraIntrinsics build) in *.
  set (frame1 := mk_MediaFrameReference (SystemRelativeTime frame)
                   (VideoMediaFrame frame) (<[key := o]> (Properties frame))).
  assert (Properties frame1 !! c_MFSampleExtension_Spatial_CameraCoordinateSystem
          = Properties frame !! c_MFSampleExtension_Spatial_CameraCoordinateSystem) as Hk1
    by (cbn; now rewrite lookup_insert_ne).
  assert (Properties frame1 !! c_MFSampleExtension_Spatial_CameraViewTransform
          = Properties frame !! c_MFSampleExtension_Spatial_CameraViewTransform) as Hk2
    by (cbn; now rewrite lookup_insert_ne).
  destruct (produces_intro build os (with_property key o sender) w
              frame1 videoMediaFrame bitmap Duration m) as [w1 H1].
  - now apply with_property_validate.
  - unfold origin_cast_ok in *. now rewrite Hk1.
  - unfold view_transform in *. now rewrite Hk2.
  - eexists _, w1, _. split; [exact H1|].
    unfold complete_frame, held_intrinsics, origin_transform,
      origin_transform_reference.
    cbn [CameraIntrinsics_of FrameToOrigin CameraViewTransform SoftwareBitmap_of].
    fold key. rewrite Hk1.
    replace (Properties frame1 !! key) with (Some o)
      by (cbn; now rewrite lookup_insert_eq).
    repeat split; reflexivity.
Qed.

Lemma FrameArrived_intrinsics_unchecked_witness :
  produces ex_build ex_os ex_sender ex_world 0 ex_sensorFrame ex_after
  /\ exists v1 w1 ci,
       produces ex_build ex_os (with_property ex_intrinsics_key ObjNull ex_sender)
         ex_world 0 v1 w1
       /\ CameraIntrinsics_of v1 = Some ci
       /\ sensorStreamingCameraIntrinsics ci = ObjNull.
Proof.
  assert (produces ex_build ex_os ex_sender ex_world 0 ex_sensorFrame ex_after) as H1
    by (split; evaluate).
  split; [exact H1|].
  destruct (FrameArrived_intrinsics_unchecked ex_build ex_os ex_sender ex_world 0
              ex_sensorFrame ex_after ObjNull H1)
    as (v1 & w1 & ci & Hproduces & Hci & Ho & _).
  - intros [=].
  - intros [=].
  - exists v1, w1, ci. auto.
Defined.

(** X11. Whatever width the bitmap reports, in range or not, the width held
    in the [CameraIntrinsics] of a produced frame is an [unsigned int]: it
    is four times the reported width modulo [2 ^ 32] for the four visible
    light cameras and the reported width modulo [2 ^ 32] for every other
    sensor type. *)
Theorem FrameArrived_CameraIntrinsics_width_modulo
    build os sender w sensorFrame v w' frame videoMediaFrame bitmap cameraIntrinsics :
  produces build os sender w sensorFrame v w' ->
  TryAcquireLatestFrame sender = Some frame ->
  VideoMediaFrame frame = Some videoMediaFrame ->
  SoftwareBitmap_ videoMediaFrame = Some bitmap ->
  Properties frame !! MFSampleExtension_SensorStreaming_CameraIntrinsics build
    = Some cameraIntrinsics ->
  exists ci,
    CameraIntrinsics_of v = Some ci
    /\ (0 <= ImageWidth ci < 2 ^ 32)%Z
    /\ (In (_sensorType (this w)) visible_light_cameras ->
        ImageWidth ci = ((4 * PixelWidth bitmap) mod 2 ^ 32)%Z)
    /\ (~ In (_sensorType (this w)) visible_light_cameras ->
        ImageWidth ci = (PixelWidth bitmap mod 2 ^ 32)%Z).
Proof.
  intros H Hframe Hvideo Hbitmap Hkey.
  destruct (produces_frame _ _ _ _ _ _ _ _ H Hframe)
    as (videoMediaFrame' & bitmap' & Duration & m & Hvideo' & Hbitmap' & _ & _ & _ & ->).
  rewrite Hvideo in Hvideo'. injection Hvideo' as <-.
  rewrite Hbitmap in Hbitmap'. injection Hbitmap' as <-.
  rewrite CameraIntrinsics_of_complete_frame. unfold held_intrinsics.
  rewrite Hkey. eexists. split; [reflexivity|].
  cbn [ImageWidth]. unfold image_width, uint32. cbn [Copy PixelWidth].
  split; [|split]; [| intros Hcamera | intros Hcamera].
  - destruct (is_VisibleLight (_sensorType (this w))); apply Z.mod_pos_bound; lia.
  - apply is_VisibleLight_In in Hcamera. rewrite Hcamera.
    rewrite Z.mul_mod_idemp_l by lia. f_equal. lia.
  - destruct (is_VisibleLight (_sensorType (this w))) eqn:Hvisible; [|reflexivity].
    apply is_VisibleLight_In in Hvisible. contradiction.
Qed.

Lemma FrameArrived_CameraIntrinsics_width_modulo_witness :
  produces ex_build ex_os ex_wide_sender ex_world 0 ex_wide_sensorFrame ex_wide_after
  /\ exists ci,
       CameraIntrinsics_of ex_wide_sensorFrame = Some ci
       /\ ImageWidth ci = ((4 * 1073741824) mod 2 ^ 32)%Z.
Proof.
  assert (produces ex_build ex_os ex_wide_sender ex_world 0 ex_wide_sensorFrame
            ex_wide_after) as H1
    by (split; evaluate).
  split; [exact H1|].
  destruct (FrameArrived_CameraIntrinsics_width_modulo
              ex_build ex_os ex_wide_sender ex_world 0 ex_wide_sensorFrame ex_wide_after
              ex_wide_frame (mk_VideoMediaFrame (Some ex_wide_bitmap) None) ex_wide_bitmap
              (ObjCameraIntrinsics 3) H1 eq_refl eq_refl eq_refl)
    as (ci & Hci & _ & Hvisible & _).
  - evaluate.
  - exists ci. split; [exact Hci|]. apply Hvisible. cbn. auto.
Defined.
